(** * Acceptance-test configuration schema: [source_acceptance_test/config.py]

    A shallow embedding of the pydantic (v1) models declared in [config.py]
    together with the legacy-format adapter of the root [Config] model.
    Each model class is a module holding the record of its fields and its
    constructor [parse]; what pydantic does with a declaration (defaults,
    coercion of raw values, [always] validators and the [values] they see,
    collection of every error with its location, [extra = "forbid"]) is
    written out in the combinators the constructors are built from.

    Raw documents are the trees produced by a JSON/YAML loader: null,
    booleans, integers, strings, lists and mappings with string keys.
    Floats are not part of the model, and strings are sequences of ASCII
    characters (the Unicode-aware classes of Python's [re] and [str] are
    modelled on their ASCII range).

    A Python [dict] keeps insertion order and that order is observable
    ([dict.items()] drives the migration loop, [dict(value)] coercion reads
    lists of pairs), so a mapping is an association list whose keys are
    pairwise distinct ([PyDict.wf]). *)

From Stdlib Require Import String Ascii ZArith List Bool Lia DecimalString.
Import ListNotations.
Local Open Scope string_scope.
Local Open Scope list_scope.

Set Implicit Arguments.

(** ** Raw documents *)

#[warnings="-register-all"]
Inductive json : Type :=
| JNull
| JBool (b : bool)
| JInt (n : Z)
| JStr (s : string)
| JList (items : list json)
| JDict (entries : list (string * json)).

Definition dict : Type := list (string * json).

(** Python's [dict] operations on association lists; the value type is
    left open because validated models map strings to typed values too. *)
Module PyDict.
Section Ops.
Variable V : Type.

Definition keys (d : list (string * V)) : list string := map fst d.

Definition wf (d : list (string * V)) : Prop := NoDup (keys d).

(** [d.get(k)] *)
Fixpoint get (k : string) (d : list (string * V)) : option V :=
  match d with
  | [] => None
  | (k', v) :: rest => if String.eqb k k' then Some v else get k rest
  end.

(** [k in d] *)
Definition contains (k : string) (d : list (string * V)) : bool :=
  match get k d with Some _ => true | None => false end.

(** [del d[k]]: the entry disappears, the others keep their order. *)
Fixpoint remove (k : string) (d : list (string * V)) : list (string * V) :=
  match d with
  | [] => []
  | (k', v) :: rest =>
      if String.eqb k k' then remove k rest else (k', v) :: remove k rest
  end.

(** [d[k] = v]: an existing key keeps its position, a new key is
    appended. *)
Fixpoint set (k : string) (v : V) (d : list (string * V)) : list (string * V) :=
  match d with
  | [] => [(k, v)]
  | (k', v') :: rest =>
      if String.eqb k k' then (k, v) :: rest else (k', v') :: set k v rest
  end.
End Ops.
End PyDict.

(** Python truthiness of a raw value ([bool(v)]). *)
Definition truthy (v : json) : bool :=
  match v with
  | JNull => false
  | JBool b => b
  | JInt n => negb (Z.eqb n 0)
  | JStr s => negb (String.eqb s "")
  | JList l => match l with [] => false | _ => true end
  | JDict d => match d with [] => false | _ => true end
  end.

(** ** Validation errors

    pydantic reports a list of errors, each with a location (the path of
    keys and list indexes leading to the offending value) and an error
    class.  [ValueError msg] is what a class validator raises. *)

Inductive loc_item : Type :=
| LKey (k : string)
| LIdx (i : Z)
| LOther (k : json).

Inductive error_kind : Type :=
| MissingError
| ExtraError
| NoneIsNotAllowedError
| StrError
| IntegerError
| BoolError
| ListError
| SetError
| DictError
| PathError
| EnumMemberError
| StrRegexError
| NumberNotGeError
| ValueError (msg : string)
| TypeError (msg : string).

Record error : Type := mkError { loc : list loc_item; kind : error_kind }.

Inductive result (A : Type) : Type :=
| Ok (a : A)
| Err (es : list error).
Arguments Ok {A} a.
Arguments Err {A} es.

Definition errs_of {A} (r : result A) : list error :=
  match r with Ok _ => [] | Err es => es end.

Definition ok_value {A} (r : result A) : option A :=
  match r with Ok a => Some a | Err _ => None end.

Definition is_ok {A} (r : result A) : bool :=
  match r with Ok _ => true | Err _ => false end.

(** A validator raising at the value under validation. *)
Definition raise {A} (k : error_kind) : result A := Err [mkError [] k].

Definition fmap {A B} (f : A -> B) (r : result A) : result B :=
  match r with Ok a => Ok (f a) | Err es => Err es end.

(** Validators of one field run in sequence and stop at the first failure. *)
Definition bind {A B} (r : result A) (f : A -> result B) : result B :=
  match r with Ok a => f a | Err es => Err es end.

(** Fields of one model are validated independently; the errors of all of
    them are collected, in declaration order. *)
Definition ap {A B} (rf : result (A -> B)) (ra : result A) : result B :=
  match rf, ra with
  | Ok f, Ok a => Ok (f a)
  | Ok _, Err es => Err es
  | Err es, Ok _ => Err es
  | Err es1, Err es2 => Err (es1 ++ es2)
  end.

Declare Scope validation_scope.
Delimit Scope validation_scope with validation.
Notation "r >>= f" := (bind r f) (at level 50, left associativity) : validation_scope.
Notation "rf <*> ra" := (ap rf ra) (at level 50, left associativity) : validation_scope.
Local Open Scope validation_scope.

(** Errors of a nested value are reported below the enclosing location. *)
Definition under (i : loc_item) (e : error) : error :=
  mkError (i :: loc e) (kind e).

Definition at_loc {A} (i : loc_item) (r : result A) : result A :=
  match r with Ok a => Ok a | Err es => Err (map (under i) es) end.

(** ** Primitive validators (pydantic's [validators.py]) *)

(** [str_validator]: a [str] is kept, an [int] (hence a [bool]) is turned
    into its [str()]. *)
Definition str_validator (v : json) : result string :=
  match v with
  | JStr s => Ok s
  | JInt n => Ok (NilZero.string_of_int (Z.to_int n))
  | JBool b => Ok (if b then "True" else "False")
  | _ => raise StrError
  end.

Definition is_digit (c : ascii) : bool :=
  let n := nat_of_ascii c in (48 <=? n)%nat && (n <=? 57)%nat.

(** The whitespace [int()] skips around the digits of an ASCII string:
    tab to carriage return, and the space. *)
Definition is_space (c : ascii) : bool :=
  let n := nat_of_ascii c in
  ((9 <=? n)%nat && (n <=? 13)%nat) || (n =? 32)%nat.

Fixpoint lstrip (s : list ascii) : list ascii :=
  match s with
  | c :: t => if is_space c then lstrip t else s
  | [] => []
  end.

Definition strip (s : list ascii) : list ascii := rev (lstrip (rev (lstrip s))).

(** Decimal digits, single underscores allowed between two digits. *)
Fixpoint parse_digits (s : list ascii) (acc : Z) (after_digit : bool) : option Z :=
  match s with
  | [] => if after_digit then Some acc else None
  | c :: t =>
      if Ascii.eqb c "_" then
        if after_digit then parse_digits t acc false else None
      else if is_digit c then
        parse_digits t (10 * acc + Z.of_nat (nat_of_ascii c - 48)) true
      else None
  end.

(** Python's [int(s)] on a string: surrounding whitespace, an optional
    sign, then the digits (the interpreter's cap on the number of digits is
    not modelled). *)
Definition int_of_str (s : string) : option Z :=
  match strip (list_ascii_of_string s) with
  | "+"%char :: t => parse_digits t 0 false
  | "-"%char :: t => option_map Z.opp (parse_digits t 0 false)
  | t => parse_digits t 0 false
  end.

(** [int_validator]: an [int] is kept; anything else goes through [int(v)]. *)
Definition int_validator (v : json) : result Z :=
  match v with
  | JInt n => Ok n
  | JBool b => Ok (if b then 1 else 0)%Z
  | JStr s => match int_of_str s with Some n => Ok n | None => raise IntegerError end
  | _ => raise IntegerError
  end.

(** [number_size_validator] for a field declared with [ge=bound]. *)
Definition number_ge (bound : Z) (n : Z) : result Z :=
  if (bound <=? n)%Z then Ok n else raise NumberNotGeError.

Definition lower_ascii (c : ascii) : ascii :=
  let n := nat_of_ascii c in
  if (65 <=? n)%nat && (n <=? 90)%nat then ascii_of_nat (n + 32) else c.

Definition lower (s : string) : string :=
  string_of_list_ascii (map lower_ascii (list_ascii_of_string s)).

Definition BOOL_FALSE : list string := ["0"; "off"; "f"; "false"; "n"; "no"].
Definition BOOL_TRUE : list string := ["1"; "on"; "t"; "true"; "y"; "yes"].

Definition str_in (s : string) (l : list string) : bool :=
  existsb (String.eqb s) l.

(** [bool_validator]: booleans, the integers 0 and 1, and the spellings
    of [BOOL_TRUE] and [BOOL_FALSE] in any letter case. *)
Definition bool_validator (v : json) : result bool :=
  match v with
  | JBool b => Ok b
  | JInt n =>
      if (n =? 1)%Z then Ok true
      else if (n =? 0)%Z then Ok false
      else raise BoolError
  | JStr s =>
      if str_in (lower s) BOOL_TRUE then Ok true
      else if str_in (lower s) BOOL_FALSE then Ok false
      else raise BoolError
  | _ => raise BoolError
  end.

(** [s.split(sep)] on characters. *)
Fixpoint split_on (sep : ascii) (s : list ascii) : list (list ascii) :=
  match s with
  | [] => [[]]
  | c :: t =>
      if Ascii.eqb c sep then [] :: split_on sep t
      else
        match split_on sep t with
        | part :: parts => (c :: part) :: parts
        | [] => [[c]]
        end
  end.

Fixpoint join_with (sep : ascii) (parts : list (list ascii)) : list ascii :=
  match parts with
  | [] => []
  | [part] => part
  | part :: rest => part ++ sep :: join_with sep rest
  end.

Fixpoint lstrip_char (c : ascii) (s : list ascii) : list ascii :=
  match s with
  | c' :: t => if Ascii.eqb c' c then lstrip_char c t else s
  | [] => []
  end.

Definition is_dot_or_empty (part : list ascii) : bool :=
  match part with
  | [] => true
  | [c] => Ascii.eqb c "."
  | _ => false
  end.

(** [str(Path(s))] on a POSIX system: the root is kept (two leading
    slashes exactly stay two, any other number becomes one), empty and "."
    components are dropped, and the empty path reads ".".  Two paths are
    equal when these strings are. *)
Definition posix_path (s : string) : string :=
  let chars := list_ascii_of_string s in
  let stripped := lstrip_char "/" chars in
  let slashes := (length chars - length stripped)%nat in
  let root :=
    if (slashes =? 0)%nat then []
    else if (slashes =? 2)%nat then ["/"; "/"]%char
    else ["/"%char] in
  let parts :=
    filter (fun part => negb (is_dot_or_empty part)) (split_on "/" stripped) in
  match (root ++ join_with "/" parts)%list with
  | [] => "."
  | path => string_of_list_ascii path
  end.

(** [path_validator]: [Path(v)] accepts exactly the strings. *)
Definition path_validator (v : json) : result string :=
  match v with
  | JStr s => Ok (posix_path s)
  | _ => raise PathError
  end.

(** ** Regular expressions ([re.match])

    The fragment of Python's [re] syntax that [SEMVER_REGEX] uses.  [run r s]
    lists, in the order a backtracking matcher tries them, the remainders
    of [s] after each way of matching [r] at its start. *)

Inductive regex : Type :=
| Lit (c : ascii)
| Class (p : ascii -> bool)
| Cat (r1 r2 : regex)
| Alt (r1 r2 : regex)
| Opt (r : regex)
| Star (r : regex).

Fixpoint star_run (step : list ascii -> list (list ascii)) (fuel : nat)
  (s : list ascii) : list (list ascii) :=
  match fuel with
  | O => [s]
  | S n =>
      flat_map
        (fun s' => if (length s' <? length s)%nat then star_run step n s' else [])
        (step s)
      ++ [s]
  end.

Fixpoint run (r : regex) (s : list ascii) : list (list ascii) :=
  match r with
  | Lit c =>
      match s with
      | c' :: t => if Ascii.eqb c c' then [t] else []
      | [] => []
      end
  | Class p =>
      match s with
      | c' :: t => if p c' then [t] else []
      | [] => []
      end
  | Cat r1 r2 => flat_map (run r2) (run r1 s)
  | Alt r1 r2 => run r1 s ++ run r2 s
  | Opt r1 => run r1 s ++ [s]
  | Star r1 => star_run (run r1) (length s) s
  end.

(** [re.match(r, s)] is truthy when some prefix of [s] matches. *)
Definition re_match (r : regex) (s : string) : bool :=
  match run r (list_ascii_of_string s) with
  | [] => false
  | _ :: _ => true
  end.

(** [re.fullmatch(r, s)]: the whole of [s] matches. *)
Definition re_fullmatch (r : regex) (s : string) : bool :=
  existsb (fun rest => match rest with [] => true | _ => false end)
    (run r (list_ascii_of_string s)).

Definition nonzero_digit (c : ascii) : bool :=
  let n := nat_of_ascii c in (49 <=? n)%nat && (n <=? 57)%nat.

(** The class "\w". *)
Definition is_word (c : ascii) : bool :=
  let n := nat_of_ascii c in
  is_digit c || ((65 <=? n)%nat && (n <=? 90)%nat)
  || ((97 <=? n)%nat && (n <=? 122)%nat) || Ascii.eqb c "_".

(** The class "[\w\.\-_]". *)
Definition is_word_dot_dash (c : ascii) : bool :=
  is_word c || Ascii.eqb c "." || Ascii.eqb c "-" || Ascii.eqb c "_".

(** The numeric group of the pattern: a lone 0, or a digit from 1 to 9
    followed by any number of digits. *)
Definition numeric_identifier : regex :=
  Alt (Lit "0") (Cat (Class nonzero_digit) (Star (Class is_digit))).

(** The prerelease group of the pattern: a word character followed by any
    number of word characters, dots, dashes and underscores. *)
Definition prerelease_identifier : regex :=
  Cat (Class is_word) (Star (Class is_word_dot_dash)).

(** [SEMVER_REGEX]: major, then optionally a dot and minor followed by an
    optional dot and patch and by an optional dash and prerelease. *)
Definition SEMVER_REGEX : regex :=
  Cat numeric_identifier
    (Opt (Cat (Lit ".")
         (Cat numeric_identifier
         (Cat (Opt (Cat (Lit ".") numeric_identifier))
              (Opt (Cat (Lit "-") prerelease_identifier)))))).

(** The [regex=] constraint of a string field ([ConstrainedStr.validate]). *)
Definition constr_regex (r : regex) (s : string) : result string :=
  if re_match r s then Ok s else raise StrRegexError.

(** ** Coercion to a mapping ([dict(value)])

    A model-typed or mapping-typed field given something that is not a
    [dict] goes through [dict(value)]: a list of two-element sequences
    becomes a mapping, later pairs overwriting earlier ones with an equal
    key.  Keys may then be any hashable value. *)

Definition hashable (k : json) : bool :=
  match k with
  | JList _ | JDict _ => false
  | _ => true
  end.

(** Python's [==] between hashable keys: [True == 1] and [False == 0]. *)
Definition key_eqb (a b : json) : bool :=
  match a, b with
  | JNull, JNull => true
  | JStr s, JStr t => String.eqb s t
  | JInt n, JInt m => Z.eqb n m
  | JBool x, JBool y => Bool.eqb x y
  | JInt n, JBool y => Z.eqb n (if y then 1 else 0)
  | JBool x, JInt m => Z.eqb (if x then 1 else 0) m
  | _, _ => false
  end.

Fixpoint key_set (k v : json) (d : list (json * json)) : list (json * json) :=
  match d with
  | [] => [(k, v)]
  | (k', v') :: rest =>
      if key_eqb k k' then (k', v) :: rest else (k', v') :: key_set k v rest
  end.

(** An element of the iterable read as a key and a value: a two-element
    list, a two-character string, or a mapping with two keys. *)
Definition as_pair (e : json) : option (json * json) :=
  match e with
  | JList [k; v] => Some (k, v)
  | JStr (String a (String b EmptyString)) =>
      Some (JStr (String a EmptyString), JStr (String b EmptyString))
  | JDict [(k1, _); (k2, _)] => Some (JStr k1, JStr k2)
  | _ => None
  end.

Fixpoint update_pairs (acc : list (json * json)) (l : list json)
  : option (list (json * json)) :=
  match l with
  | [] => Some acc
  | e :: rest =>
      match as_pair e with
      | Some (k, v) =>
          if hashable k then update_pairs (key_set k v acc) rest else None
      | None => None
      end
  end.

(** [dict_validator]: [None] stands for the [TypeError]/[ValueError] of
    [dict(value)]. *)
Definition dict_validator (v : json) : option (list (json * json)) :=
  match v with
  | JDict d => Some (map (fun kv => (JStr (fst kv), snd kv)) d)
  | JList l => update_pairs [] l
  | JStr EmptyString => Some []
  | _ => None
  end.

(** [cls( **data )] needs string keywords. *)
Fixpoint kwargs (kvs : list (json * json)) : option dict :=
  match kvs with
  | [] => Some []
  | (JStr k, v) :: rest => option_map (cons (k, v)) (kwargs rest)
  | _ => None
  end.

(** The first parameter of [BaseModel.__init__] is named
    [__pydantic_self__]: a mapping that holds this key cannot be passed as
    keyword arguments, the call raises [TypeError] before anything of the
    model runs.  (The text of the message is that of CPython up to 3.9;
    later versions put the name of the class in front.) *)
Definition reserved_key : string := "__pydantic_self__".

Definition unreserved (data : dict) : bool :=
  negb (PyDict.contains reserved_key data).

Definition multiple_values : string :=
  "__init__() got multiple values for argument '__pydantic_self__'".

(** [cls( **data )] inside a field: the [TypeError] of the call becomes an
    error of the field. *)
Definition call_model {A} (parse : dict -> result A) (data : dict) : result A :=
  if unreserved data then parse data else raise (TypeError multiple_values).

(** [BaseModel.validate]: the value is a mapping, or is coerced to one. *)
Definition model_validate {A} (parse : dict -> result A) (v : json) : result A :=
  match v with
  | JDict d => call_model parse d
  | _ =>
      match dict_validator v with
      | None => raise DictError
      | Some kvs =>
          match kwargs kvs with
          | Some d => call_model parse d
          | None => raise (TypeError "keywords must be strings")
          end
      end
  end.

(** ** Field shapes ([ModelField.validate]) *)

(** A field whose type does not admit [None]. *)
Definition not_none {A} (V : json -> result A) (v : json) : result A :=
  match v with
  | JNull => raise NoneIsNotAllowedError
  | _ => V v
  end.

(** An [Optional[...]] field, or one whose default is [None]. *)
Definition allow_none {A} (V : json -> result A) (v : json) : result (option A) :=
  match v with
  | JNull => Ok None
  | _ => fmap Some (V v)
  end.

(** [List[T]]: every item is validated and all item errors are kept. *)
Fixpoint list_items {A} (V : json -> result A) (i : Z) (l : list json)
  : result (list A) :=
  match l with
  | [] => Ok []
  | v :: rest => Ok cons <*> at_loc (LIdx i) (V v) <*> list_items V (i + 1) rest
  end.

Definition list_validate {A} (V : json -> result A) (v : json) : result (list A) :=
  match v with
  | JList l => list_items V 0 l
  | _ => raise ListError
  end.

(** [Set[str]]: the validated items without repetition. *)
Definition set_validate (V : json -> result string) (v : json)
  : result (list string) :=
  match v with
  | JList l => fmap (nodup string_dec) (list_items V 0 l)
  | _ => raise SetError
  end.

Definition loc_of_key (k : json) : loc_item :=
  match k with
  | JStr s => LKey s
  | JInt n => LIdx n
  | _ => LOther k
  end.

(** [Mapping[str, T]]: each key goes through the key validator and each
    value through the value validator; an entry with an error is skipped
    and its errors are kept. *)
Fixpoint mapping_items {A} (V : json -> result A) (kvs : list (json * json))
  (acc : result (list (string * A))) : result (list (string * A)) :=
  match kvs with
  | [] => acc
  | (k, v) :: rest =>
      let entry :=
        at_loc (LKey "__key__") (not_none str_validator k) >>= fun k' =>
        fmap (pair k') (at_loc (loc_of_key k) (V v)) in
      mapping_items V rest
        (Ok (fun d kv => PyDict.set (fst kv) (snd kv) d) <*> acc <*> entry)
  end.

(** What a [Mapping] field holds: the validated mapping when the input was
    a [dict]; otherwise the class of the input rebuilt from the validated
    mapping, that is the list of its keys for a list and its printed form
    for the (empty) string. *)
Inductive mapping_value (A : Type) : Type :=
| AsDict (entries : list (string * A))
| AsList (keys : list string)
| AsStr (printed : string).
Arguments AsDict {A} entries.
Arguments AsList {A} keys.
Arguments AsStr {A} printed.

Definition mapping_validate {A} (V : json -> result A) (v : json)
  : result (mapping_value A) :=
  match dict_validator v with
  | None => raise DictError
  | Some kvs =>
      fmap
        (fun converted =>
           match v with
           | JDict _ => AsDict converted
           | JList _ => AsList (PyDict.keys converted)
           | _ => AsStr "{}"
           end)
        (mapping_items V kvs (Ok []))
  end.

(** ** Fields of a model ([validate_model]) *)

Section Fields.
Variable input_data : dict.

(** A field without default: its absence is an error. *)
Definition required {A} (name : string) (V : json -> result A) : result A :=
  match PyDict.get name input_data with
  | None => Err [mkError [LKey name] MissingError]
  | Some v => at_loc (LKey name) (V v)
  end.

(** A field with a default: the default is taken as it is, unvalidated. *)
Definition defaulted {A} (name : string) (default : A) (V : json -> result A)
  : result A :=
  match PyDict.get name input_data with
  | None => Ok default
  | Some v => at_loc (LKey name) (V v)
  end.

(** A field with an [always=True] validator: the default is validated
    like a supplied value. *)
Definition always {A} (name : string) (default : json) (V : json -> result A)
  : result A :=
  at_loc (LKey name)
    (V (match PyDict.get name input_data with
        | None => default
        | Some v => v
        end)).

Fixpoint insert_sorted (k : string) (l : list string) : list string :=
  match l with
  | [] => [k]
  | k' :: rest =>
      if String.leb k k' then k :: l else k' :: insert_sorted k rest
  end.

(** [sorted(...)] *)
Definition sorted (l : list string) : list string :=
  fold_right insert_sorted [] l.

(** Keys of the input that name no field. *)
Definition extra (fields : list string) : list string :=
  filter (fun k => negb (str_in k fields)) (PyDict.keys input_data).

(** [extra = "forbid"]: one error per unknown key, after the errors of
    the fields. *)
Definition forbid_extra {A} (fields : list string) (r : result A) : result A :=
  match sorted (extra fields) with
  | [] => r
  | ks => Err (errs_of r ++ map (fun k => mkError [LKey k] ExtraError) ks)
  end.
End Fields.

(** The [values] mapping handed to a class validator holds the fields
    validated so far; a field that failed is absent from it. *)
Definition add_value {A} (name : string) (encode : A -> json) (r : result A)
  (values : dict) : dict :=
  match r with
  | Ok a => PyDict.set name (encode a) values
  | Err _ => values
  end.

Definition json_of_option_str (o : option string) : json :=
  match o with Some s => JStr s | None => JNull end.

(** ** Field primitives shared by the test categories *)

Module Field.
Definition config_path (d : dict) : result string :=
  defaulted d "config_path" "secrets/config.json" (not_none str_validator).

(** Declared without default; no model of the file embeds it. *)
Definition invalid_config_path (d : dict) : result string :=
  required d "invalid_config_path" (not_none str_validator).

Definition spec_path (d : dict) : result string :=
  defaulted d "spec_path" "secrets/spec.json" (not_none str_validator).

Definition configured_catalog_path (d : dict) : result (option string) :=
  defaulted d "configured_catalog_path" None (allow_none str_validator).

(** Declared [int] with [default=None] and [ge=0]. *)
Definition timeout_seconds (d : dict) : result (option Z) :=
  defaulted d "timeout_seconds" None
    (allow_none (fun v => int_validator v >>= number_ge 0)).
End Field.

Definition ALLOW_LEGACY_CONFIG : bool := true.

(** ** The models *)

Module BackwardCompatibilityTestsConfig.
Record t : Type := make {
  previous_connector_version : string;
  disable_for_version : option string
}.

Definition fields : list string :=
  ["previous_connector_version"; "disable_for_version"].

(** A string field declared with [regex=SEMVER_REGEX]. *)
Definition semver (v : json) : result string :=
  str_validator v >>= constr_regex SEMVER_REGEX.

Definition parse (d : dict) : result t :=
  forbid_extra d fields
    (Ok make
     <*> defaulted d "previous_connector_version" "latest" (not_none semver)
     <*> defaulted d "disable_for_version" None (allow_none semver)).

(** [BackwardCompatibilityTestsConfig()], the default of the fields that
    embed this model. *)
Definition default : t := make "latest" None.
End BackwardCompatibilityTestsConfig.

Module SpecTestConfig.
Record t : Type := make {
  spec_path : string;
  config_path : string;
  timeout_seconds : option Z;
  backward_compatibility_tests_config : BackwardCompatibilityTestsConfig.t
}.

Definition fields : list string :=
  ["spec_path"; "config_path"; "timeout_seconds";
   "backward_compatibility_tests_config"].

Definition parse (d : dict) : result t :=
  forbid_extra d fields
    (Ok make
     <*> Field.spec_path d
     <*> Field.config_path d
     <*> Field.timeout_seconds d
     <*> defaulted d "backward_compatibility_tests_config"
           BackwardCompatibilityTestsConfig.default
           (not_none (model_validate BackwardCompatibilityTestsConfig.parse))).
End SpecTestConfig.

Module ConnectionTestConfig.
Inductive Status : Type := Succeed | Failed | Exception.

Record t : Type := make {
  config_path : string;
  status : Status;
  timeout_seconds : option Z
}.

Definition fields : list string := ["config_path"; "status"; "timeout_seconds"].

(** [Status(v)]: lookup of the member by its value. *)
Definition status_validator (v : json) : result Status :=
  match v with
  | JStr s =>
      if String.eqb s "succeed" then Ok Succeed
      else if String.eqb s "failed" then Ok Failed
      else if String.eqb s "exception" then Ok Exception
      else raise EnumMemberError
  | _ => raise EnumMemberError
  end.

Definition parse (d : dict) : result t :=
  forbid_extra d fields
    (Ok make
     <*> Field.config_path d
     <*> defaulted d "status" Succeed (not_none status_validator)
     <*> Field.timeout_seconds d).
End ConnectionTestConfig.

Module DiscoveryTestConfig.
Record t : Type := make {
  config_path : string;
  timeout_seconds : option Z;
  backward_compatibility_tests_config : BackwardCompatibilityTestsConfig.t
}.

Definition fields : list string :=
  ["config_path"; "timeout_seconds"; "backward_compatibility_tests_config"].

Definition parse (d : dict) : result t :=
  forbid_extra d fields
    (Ok make
     <*> Field.config_path d
     <*> Field.timeout_seconds d
     <*> defaulted d "backward_compatibility_tests_config"
           BackwardCompatibilityTestsConfig.default
           (not_none (model_validate BackwardCompatibilityTestsConfig.parse))).
End DiscoveryTestConfig.

Module ExpectedRecordsConfig.
Record t : Type := make {
  path : string;
  extra_fields : bool;
  exact_order : bool;
  extra_records : bool
}.

Definition fields : list string :=
  ["path"; "extra_fields"; "exact_order"; "extra_records"].

Definition validate_exact_order (exact_order : bool) (values : dict)
  : result bool :=
  if PyDict.contains "extra_fields" values
     && match PyDict.get "extra_fields" values with
        | Some v => truthy v
        | None => false
        end
     && negb exact_order
  then raise (ValueError "exact_order must be on if extra_fields enabled")
  else Ok exact_order.

Definition validate_extra_records (extra_records : bool) (values : dict)
  : result bool :=
  if PyDict.contains "extra_fields" values
     && match PyDict.get "extra_fields" values with
        | Some v => truthy v
        | None => false
        end
     && extra_records
  then raise (ValueError "extra_records must be off if extra_fields enabled")
  else Ok extra_records.

Definition parse (d : dict) : result t :=
  let r_path := required d "path" (not_none path_validator) in
  let values := add_value "path" JStr r_path [] in
  let r_extra_fields :=
    defaulted d "extra_fields" false (not_none bool_validator) in
  let values := add_value "extra_fields" JBool r_extra_fields values in
  let r_exact_order :=
    always d "exact_order" (JBool false)
      (fun v => not_none bool_validator v >>= fun b =>
                validate_exact_order b values) in
  let values := add_value "exact_order" JBool r_exact_order values in
  let r_extra_records :=
    always d "extra_records" (JBool true)
      (fun v => not_none bool_validator v >>= fun b =>
                validate_extra_records b values) in
  forbid_extra d fields
    (Ok make <*> r_path <*> r_extra_fields <*> r_exact_order
     <*> r_extra_records).
End ExpectedRecordsConfig.

Module BasicReadTestConfig.
Record t : Type := make {
  config_path : string;
  configured_catalog_path : option string;
  empty_streams : list string;
  expect_records : option ExpectedRecordsConfig.t;
  validate_schema : bool;
  validate_data_points : bool;
  expect_trace_message_on_failure : bool;
  timeout_seconds : option Z
}.

Definition fields : list string :=
  ["config_path"; "configured_catalog_path"; "empty_streams";
   "expect_records"; "validate_schema"; "validate_data_points";
   "expect_trace_message_on_failure"; "timeout_seconds"].

Definition parse (d : dict) : result t :=
  forbid_extra d fields
    (Ok make
     <*> Field.config_path d
     <*> Field.configured_catalog_path d
     <*> defaulted d "empty_streams" []
           (not_none (set_validate (not_none str_validator)))
     <*> defaulted d "expect_records" None
           (allow_none (model_validate ExpectedRecordsConfig.parse))
     <*> defaulted d "validate_schema" true (not_none bool_validator)
     <*> defaulted d "validate_data_points" false (not_none bool_validator)
     <*> defaulted d "expect_trace_message_on_failure" true
           (not_none bool_validator)
     <*> Field.timeout_seconds d).
End BasicReadTestConfig.

(** [Mapping[str, List[str]]] *)
Definition str_lists_validator (v : json)
  : result (mapping_value (list string)) :=
  mapping_validate (not_none (list_validate (not_none str_validator))) v.

Module FullRefreshConfig.
Record t : Type := make {
  config_path : string;
  configured_catalog_path : option string;
  timeout_seconds : option Z;
  ignored_fields : option (mapping_value (list string))
}.

Definition fields : list string :=
  ["config_path"; "configured_catalog_path"; "timeout_seconds";
   "ignored_fields"].

Definition parse (d : dict) : result t :=
  forbid_extra d fields
    (Ok make
     <*> Field.config_path d
     <*> Field.configured_catalog_path d
     <*> Field.timeout_seconds d
     <*> defaulted d "ignored_fields" None (allow_none str_lists_validator)).
End FullRefreshConfig.

Module IncrementalConfig.
Record t : Type := make {
  config_path : string;
  configured_catalog_path : option string;
  cursor_paths : option (mapping_value (list string));
  future_state_path : option string;
  timeout_seconds : option Z;
  threshold_days : Z;
  skip_comprehensive_incremental_tests : option bool
}.

Definition fields : list string :=
  ["config_path"; "configured_catalog_path"; "cursor_paths";
   "future_state_path"; "timeout_seconds"; "threshold_days";
   "skip_comprehensive_incremental_tests"].

Definition parse (d : dict) : result t :=
  forbid_extra d fields
    (Ok make
     <*> Field.config_path d
     <*> Field.configured_catalog_path d
     <*> defaulted d "cursor_paths" None (allow_none str_lists_validator)
     <*> defaulted d "future_state_path" None (allow_none str_validator)
     <*> Field.timeout_seconds d
     <*> defaulted d "threshold_days" 0%Z
           (not_none (fun v => int_validator v >>= number_ge 0))
     <*> defaulted d "skip_comprehensive_incremental_tests" (Some false)
           (allow_none bool_validator)).
End IncrementalConfig.

(** The category wrapper.  It derives from [GenericModel], not from
    [BaseConfig]: unknown keys are ignored here. *)
Module GenericTestConfig.
Section Generic.
Variable TestConfigT : Type.
Variable parse_test : dict -> result TestConfigT.

Record t : Type := make {
  bypass_reason : option string;
  tests : option (list TestConfigT)
}.

Definition fields : list string := ["bypass_reason"; "tests"].

Definition no_bypass_reason_when_tests_is_set
  (tests : option (list TestConfigT)) (values : dict)
  : result (option (list TestConfigT)) :=
  if match tests with Some (_ :: _) => true | _ => false end
     && match PyDict.get "bypass_reason" values with
        | Some v => truthy v
        | None => false
        end
  then raise (ValueError "You can't set a bypass_reason if tests are set.")
  else Ok tests.

Definition parse (d : dict) : result t :=
  let r_bypass_reason :=
    defaulted d "bypass_reason" None (allow_none str_validator) in
  let values :=
    add_value "bypass_reason" json_of_option_str r_bypass_reason [] in
  let r_tests :=
    always d "tests" JNull
      (fun v =>
         allow_none (list_validate (not_none (model_validate parse_test))) v
         >>= fun tests => no_bypass_reason_when_tests_is_set tests values) in
  Ok make <*> r_bypass_reason <*> r_tests.
End Generic.
End GenericTestConfig.

Module AcceptanceTestConfigurations.
Record t : Type := make {
  spec : option (GenericTestConfig.t SpecTestConfig.t);
  connection : option (GenericTestConfig.t ConnectionTestConfig.t);
  discovery : option (GenericTestConfig.t DiscoveryTestConfig.t);
  basic_read : option (GenericTestConfig.t BasicReadTestConfig.t);
  full_refresh : option (GenericTestConfig.t FullRefreshConfig.t);
  incremental : option (GenericTestConfig.t IncrementalConfig.t)
}.

Definition fields : list string :=
  ["spec"; "connection"; "discovery"; "basic_read"; "full_refresh";
   "incremental"].

(** An [Optional[GenericTestConfig[T]]] field. *)
Definition category {T} (d : dict) (name : string)
  (parse_test : dict -> result T) : result (option (GenericTestConfig.t T)) :=
  defaulted d name None
    (allow_none (model_validate (GenericTestConfig.parse parse_test))).

Definition parse (d : dict) : result t :=
  forbid_extra d fields
    (Ok make
     <*> category d "spec" SpecTestConfig.parse
     <*> category d "connection" ConnectionTestConfig.parse
     <*> category d "discovery" DiscoveryTestConfig.parse
     <*> category d "basic_read" BasicReadTestConfig.parse
     <*> category d "full_refresh" FullRefreshConfig.parse
     <*> category d "incremental" IncrementalConfig.parse).
End AcceptanceTestConfigurations.

(** ** The root model and the legacy adapter *)

(** Exceptions that are not validation errors leave the constructor as
    they are. *)
Inductive exn : Type :=
| KeyError (key : string)
| AttributeError (attribute : string)
| CallTypeError (message : string).

Inductive raising (A : Type) : Type :=
| Returned (a : A)
| Raised (e : exn).
Arguments Returned {A} a.
Arguments Raised {A} e.

(** What constructing a model from a raw document ends in. *)
Inductive outcome (A : Type) : Type :=
| Valid (a : A)
| Invalid (errors : list error)
| Crashed (e : exn).
Arguments Valid {A} a.
Arguments Invalid {A} errors.
Arguments Crashed {A} e.

Module Config.
Inductive TestStrictnessLevel : Type := high | low.

Record t : Type := make {
  connector_image : string;
  acceptance_tests : AcceptanceTestConfigurations.t;
  base_path : option string;
  test_strictness_level : option TestStrictnessLevel
}.

Definition fields : list string :=
  ["connector_image"; "acceptance_tests"; "base_path";
   "test_strictness_level"].

Definition strictness_validator (v : json) : result TestStrictnessLevel :=
  match v with
  | JStr s =>
      if String.eqb s "high" then Ok high
      else if String.eqb s "low" then Ok low
      else raise EnumMemberError
  | _ => raise EnumMemberError
  end.

Definition is_legacy (config : dict) : bool :=
  PyDict.contains "tests" config.

(** [config[outer][inner] = v] for a mapping-valued [config[outer]]. *)
Definition set_nested (outer inner : string) (v : json) (config : dict) : dict :=
  match PyDict.get outer config with
  | Some (JDict nested) =>
      PyDict.set outer (JDict (PyDict.set inner v nested)) config
  | _ => config
  end.

(** The copy is deep and nothing is mutated afterwards, so the copied
    document is the document itself. *)
Definition migrate_legacy_to_current_config (legacy_config : dict)
  : raising dict :=
  let migrated_config := legacy_config in
  match PyDict.get "tests" migrated_config with
  | None => Raised (KeyError "tests")
  | Some tests =>
      let migrated_config := PyDict.remove "tests" migrated_config in
      let migrated_config :=
        PyDict.set "acceptance_tests" (JDict []) migrated_config in
      match tests with
      | JDict items =>
          Returned
            (fold_left
               (fun migrated entry =>
                  let '(test_name, test_configs) := entry in
                  set_nested "acceptance_tests" test_name
                    (JDict [("tests", test_configs)]) migrated)
               items migrated_config)
      | _ => Raised (AttributeError "items")
      end
  end.

Definition legacy_warning : string :=
  "The acceptance-test-config.yml file is in a legacy format. Please migrate to the latest format.".

(** The pre-validation hook; the first component is what it logs. *)
Definition legacy_format_adapter (allow_legacy_config : bool) (values : dict)
  : list string * raising dict :=
  if allow_legacy_config && is_legacy values then
    ([legacy_warning], migrate_legacy_to_current_config values)
  else ([], Returned values).

(** Field validation of the (possibly migrated) document. *)
Definition validate_fields (d : dict) : result t :=
  forbid_extra d fields
    (Ok make
     <*> required d "connector_image" (not_none str_validator)
     <*> required d "acceptance_tests"
           (not_none (model_validate AcceptanceTestConfigurations.parse))
     <*> defaulted d "base_path" None (allow_none str_validator)
     <*> defaulted d "test_strictness_level" (Some low)
           (allow_none strictness_validator)).

(** [Config( **document )] under a given position of the legacy toggle.
    The call itself fails on the reserved keyword, before the adapter
    runs. *)
Definition construct_with (allow_legacy_config : bool) (document : dict)
  : list string * outcome t :=
  if unreserved document then
    let (log, adapted) := legacy_format_adapter allow_legacy_config document in
    (log,
     match adapted with
     | Raised e => Crashed e
     | Returned values =>
         match validate_fields values with
         | Ok config => Valid config
         | Err errors => Invalid errors
         end
     end)
  else ([], Crashed (CallTypeError multiple_values)).

Definition construct (document : dict) : list string * outcome t :=
  construct_with ALLOW_LEGACY_CONFIG document.
End Config.

(** What a result of field validation ends the constructor in. *)
Definition outcome_of {A} (r : result A) : outcome A :=
  match r with
  | Ok a => Valid a
  | Err errors => Invalid errors
  end.

(** Construction of a model on its own, [cls( **d )] outside a field. *)
Definition construct {A} (parse : dict -> result A) (d : dict) : outcome A :=
  if unreserved d then outcome_of (parse d)
  else Crashed (CallTypeError multiple_values).

(** ** Notions used in the statements *)

(** What the migration stores under a category name. *)
Definition wrap_tests (entry : string * json) : string * json :=
  (fst entry, JDict [("tests", snd entry)]).

(** The [acceptance_tests] mapping built by the migration loop from the
    entries of the legacy [tests] mapping. *)
Definition acceptance_tests_of (items : dict) : dict :=
  fold_left
    (fun acc entry => PyDict.set (fst entry) (JDict [("tests", snd entry)]) acc)
    items [].

(** The document of the migration example in the docstring of
    [migrate_legacy_to_current_config], with the values of the specification. *)
Definition legacy_example : dict :=
  [("connector_image", JStr "x");
   ("tests", JDict [("spec", JList [JDict [("spec_path", JStr "a")]])])].

Definition migrated_example : dict :=
  [("connector_image", JStr "x");
   ("acceptance_tests",
    JDict [("spec", JDict [("tests", JList [JDict [("spec_path", JStr "a")]])])])].

(** The value a mapping gives a boolean field: the default when the key is
    absent, otherwise what the supplied value validates to. *)
Definition flag (d : dict) (name : string) (default : bool) : option bool :=
  match PyDict.get name d with
  | None => Some default
  | Some v => ok_value (not_none bool_validator v)
  end.

Definition exact_order_error : error :=
  mkError [LKey "exact_order"]
    (ValueError "exact_order must be on if extra_fields enabled").

Definition extra_records_error : error :=
  mkError [LKey "extra_records"]
    (ValueError "extra_records must be off if extra_fields enabled").

Definition extra_error (k : string) : error := mkError [LKey k] ExtraError.

Definition bypass_reason_error : error :=
  mkError [LKey "tests"]
    (ValueError "You can't set a bypass_reason if tests are set.").

(** The grammar as the specification words it,
    major[.minor[.patch[-prerelease]]]: each bracket nests in the previous
    one, so a prerelease needs a patch. *)
Definition SPEC_SEMVER_GRAMMAR : regex :=
  Cat numeric_identifier
    (Opt (Cat (Lit ".")
         (Cat numeric_identifier
         (Opt (Cat (Lit ".")
              (Cat numeric_identifier
              (Opt (Cat (Lit "-") prerelease_identifier)))))))).

Definition in_spec_grammar (s : string) : bool :=
  re_fullmatch SPEC_SEMVER_GRAMMAR s.

Definition starts_with_digit (s : string) : bool :=
  match s with
  | String c _ => is_digit c
  | EmptyString => false
  end.

Definition nonempty {A : Type} (l : list A) : bool :=
  match l with [] => false | _ :: _ => true end.





(** The errors of one entry of a category's [tests] list. *)
Definition entry_errors (category : string) (entry : dict) : list error :=
  if String.eqb category "spec" then errs_of (SpecTestConfig.parse entry)
  else if String.eqb category "connection" then
    errs_of (ConnectionTestConfig.parse entry)
  else if String.eqb category "discovery" then
    errs_of (DiscoveryTestConfig.parse entry)
  else if String.eqb category "basic_read" then
    errs_of (BasicReadTestConfig.parse entry)
  else if String.eqb category "full_refresh" then
    errs_of (FullRefreshConfig.parse entry)
  else if String.eqb category "incremental" then
    errs_of (IncrementalConfig.parse entry)
  else [].






(** The value of each member of the two enumerations. *)
Definition status_value (s : ConnectionTestConfig.Status) : string :=
  match s with
  | ConnectionTestConfig.Succeed => "succeed"
  | ConnectionTestConfig.Failed => "failed"
  | ConnectionTestConfig.Exception => "exception"
  end.

Definition strictness_value (l : Config.TestStrictnessLevel) : string :=
  match l with
  | Config.high => "high"
  | Config.low => "low"
  end.

(** Construction of the root configuration fails and reports an error of
    the given class at the given location. *)
Definition rejects_with (allow_legacy_config : bool) (document : dict)
  (path : list loc_item) (k : error_kind) : Prop :=
  exists log errors,
    Config.construct_with allow_legacy_config document = (log, Invalid errors)
    /\ In (mkError path k) errors.

(** * Properties *)

(** ** Results and error collection *)

Section ResultFacts.
Context {A B : Type}.

Lemma errs_of_ap (rf : result (A -> B)) (ra : result A) :
  errs_of (rf <*> ra) = errs_of rf ++ errs_of ra.
Proof.
  destruct rf, ra; simpl; auto using app_nil_r.
Qed.

Lemma in_errs_of (r : result A) (e : error) :
  In e (errs_of r) -> exists es, r = Err es /\ In e es.
Proof.
  destruct r; simpl; [contradiction | eauto].
Qed.

Lemma errs_of_at_loc (i : loc_item) (r : result A) :
  errs_of (at_loc i r) = map (under i) (errs_of r).
Proof. now destruct r. Qed.

Lemma in_at_loc (i : loc_item) (r : result A) (e : error) :
  In e (errs_of r) -> In (under i e) (errs_of (at_loc i r)).
Proof. rewrite errs_of_at_loc. apply in_map. Qed.
End ResultFacts.

(** ** Python dictionaries *)

Section PyDictFacts.
Context {V : Type}.
Implicit Types (d : list (string * V)) (k : string) (v : V).

Lemma get_remove_eq k d : PyDict.get k (PyDict.remove k d) = None.
Proof.
  induction d as [|[k' v'] d IH]; simpl; auto.
  destruct (String.eqb_spec k k'); simpl; auto.
  destruct (String.eqb_spec k k'); congruence.
Qed.

Lemma get_remove_ne k k' d :
  k <> k' -> PyDict.get k' (PyDict.remove k d) = PyDict.get k' d.
Proof.
  intros Hne. induction d as [|[k0 v0] d IH]; simpl; auto.
  destruct (String.eqb_spec k k0); simpl.
  - subst. destruct (String.eqb_spec k' k0); congruence.
  - now rewrite IH.
Qed.

Lemma get_set_eq k v d : PyDict.get k (PyDict.set k v d) = Some v.
Proof.
  induction d as [|[k' v'] d IH]; simpl.
  - now rewrite String.eqb_refl.
  - destruct (String.eqb_spec k k'); simpl.
    + now rewrite String.eqb_refl.
    + destruct (String.eqb_spec k k'); congruence.
Qed.

Lemma get_set_ne k k' v d :
  k <> k' -> PyDict.get k' (PyDict.set k v d) = PyDict.get k' d.
Proof.
  intros Hne. induction d as [|[k0 v0] d IH]; simpl.
  - destruct (String.eqb_spec k' k); congruence.
  - destruct (String.eqb_spec k k0); simpl.
    + subst. destruct (String.eqb_spec k' k0); congruence.
    + now rewrite IH.
Qed.

Lemma set_set k v1 v2 d :
  PyDict.set k v2 (PyDict.set k v1 d) = PyDict.set k v2 d.
Proof.
  induction d as [|[k' v'] d IH]; simpl.
  - now rewrite String.eqb_refl.
  - destruct (String.eqb_spec k k'); simpl.
    + now rewrite String.eqb_refl.
    + destruct (String.eqb_spec k k'); congruence.
Qed.

Lemma set_fresh k v d :
  ~ In k (PyDict.keys d) -> PyDict.set k v d = d ++ [(k, v)].
Proof.
  induction d as [|[k' v'] d IH]; simpl; auto.
  intros Hnot. destruct (String.eqb_spec k k').
  - subst. tauto.
  - rewrite IH; tauto.
Qed.

Lemma get_in_keys k d :
  In k (PyDict.keys d) <-> exists v, PyDict.get k d = Some v.
Proof.
  induction d as [|[k' v'] d IH]; simpl.
  - split; [contradiction | intros [v Hv]; discriminate].
  - destruct (String.eqb_spec k k').
    + subst. split; eauto.
    + rewrite <- IH. split; [intros [Heq | Hin] | ]; auto; congruence.
Qed.

Lemma contains_in_keys k d :
  PyDict.contains k d = true <-> In k (PyDict.keys d).
Proof.
  unfold PyDict.contains. rewrite get_in_keys.
  destruct (PyDict.get k d); split; eauto; try discriminate.
  intros [v Hv]. discriminate.
Qed.
End PyDictFacts.

(** ** Unknown keys *)

Lemma in_insert_sorted (k x : string) (l : list string) :
  In x (insert_sorted k l) <-> x = k \/ In x l.
Proof.
  induction l as [|k' l IH]; simpl.
  - intuition.
  - destruct (String.leb k k'); simpl; rewrite ?IH; intuition.
Qed.

Lemma in_sorted (x : string) (l : list string) : In x (sorted l) <-> In x l.
Proof.
  induction l as [|k l IH]; simpl; [tauto|].
  rewrite in_insert_sorted, IH. intuition.
Qed.

Lemma str_in_spec (k : string) (l : list string) :
  str_in k l = true <-> In k l.
Proof.
  unfold str_in. rewrite existsb_exists. split.
  - intros [x [Hin Heq]]. apply String.eqb_eq in Heq. now subst.
  - intros Hin. exists k. split; auto. apply String.eqb_refl.
Qed.

Lemma in_extra (d : dict) (fields : list string) (k : string) :
  In k (extra d fields) <-> In k (PyDict.keys d) /\ ~ In k fields.
Proof.
  unfold extra. rewrite filter_In, negb_true_iff.
  split; intros [H1 H2]; split; auto.
  - intro Hf. apply str_in_spec in Hf. congruence.
  - destruct (str_in k fields) eqn:E; auto.
    apply str_in_spec in E. contradiction.
Qed.

Section ForbidExtra.
Context {A : Type}.
Variables (d : dict) (fields : list string) (r : result A).

Lemma errs_of_forbid_extra :
  errs_of (forbid_extra d fields r)
  = errs_of r ++ map extra_error (sorted (extra d fields)).
Proof.
  unfold forbid_extra.
  destruct (sorted (extra d fields)) as [|k ks]; simpl.
  - now rewrite app_nil_r.
  - reflexivity.
Qed.

Lemma forbid_extra_unknown (k : string) :
  In k (PyDict.keys d) -> ~ In k fields ->
  In (extra_error k) (errs_of (forbid_extra d fields r)).
Proof.
  intros Hk Hf. rewrite errs_of_forbid_extra. apply in_or_app. right.
  apply in_map, in_sorted, in_extra. auto.
Qed.

Lemma forbid_extra_keeps (e : error) :
  In e (errs_of r) -> In e (errs_of (forbid_extra d fields r)).
Proof.
  intros He. rewrite errs_of_forbid_extra. apply in_or_app. now left.
Qed.

Lemma forbid_extra_none :
  extra d fields = [] -> forbid_extra d fields r = r.
Proof. intros H. unfold forbid_extra. now rewrite H. Qed.
End ForbidExtra.

(** ** The reserved keyword *)

Lemma construct_unreserved {A : Type} (parse : dict -> result A) (d : dict) :
  unreserved d = true -> construct parse d = outcome_of (parse d).
Proof. intros H. unfold construct. now rewrite H. Qed.

Lemma call_model_unreserved {A : Type} (parse : dict -> result A) (d : dict) :
  unreserved d = true -> call_model parse d = parse d.
Proof. intros H. unfold call_model. now rewrite H. Qed.

Lemma unreserved_not_in_keys (d : dict) :
  unreserved d = true <-> ~ In reserved_key (PyDict.keys d).
Proof.
  unfold unreserved. rewrite negb_true_iff. split.
  - intros H Hin. apply contains_in_keys in Hin. congruence.
  - intros H. destruct (PyDict.contains reserved_key d) eqn:E; auto.
    apply contains_in_keys in E. contradiction.
Qed.

(** A mapping without unknown key does not hold the reserved keyword,
    which no model declares as a field. *)
Lemma extra_none_unreserved (d : dict) (fields : list string) :
  extra d fields = [] -> ~ In reserved_key fields -> unreserved d = true.
Proof.
  intros Hx Hf. apply unreserved_not_in_keys. intros Hin.
  assert (H : In reserved_key (extra d fields)) by (apply in_extra; auto).
  rewrite Hx in H. contradiction.
Qed.

(** ** Legacy detection and migration *)

Lemma remove_set_ne {V : Type} (k k' : string) (v : V) (d : list (string * V)) :
  k <> k' ->
  PyDict.remove k (PyDict.set k' v d) = PyDict.set k' v (PyDict.remove k d).
Proof.
  intros Hne. induction d as [|[k0 v0] d IH]; simpl.
  - destruct (String.eqb_spec k k'); congruence.
  - destruct (String.eqb_spec k' k0), (String.eqb_spec k k0); subst; simpl;
      rewrite ?String.eqb_refl; try congruence.
    + destruct (String.eqb_spec k k0); congruence.
    + destruct (String.eqb_spec k' k0), (String.eqb_spec k k0); congruence.
Qed.

Lemma migration_loop (items acc base : dict) :
  fold_left
    (fun migrated entry =>
       let '(test_name, test_configs) := entry in
       Config.set_nested "acceptance_tests" test_name
         (JDict [("tests", test_configs)]) migrated)
    items (PyDict.set "acceptance_tests" (JDict acc) base)
  = PyDict.set "acceptance_tests"
      (JDict
         (fold_left
            (fun acc entry =>
               PyDict.set (fst entry) (JDict [("tests", snd entry)]) acc)
            items acc))
      base.
Proof.
  revert acc. induction items as [|[name configs] items IH]; intros acc; simpl.
  - reflexivity.
  - unfold Config.set_nested at 2. rewrite get_set_eq, set_set. apply IH.
Qed.

Lemma migrate_legacy_returns (d items : dict) :
  PyDict.get "tests" d = Some (JDict items) ->
  Config.migrate_legacy_to_current_config d
  = Returned
      (PyDict.set "acceptance_tests" (JDict (acceptance_tests_of items))
         (PyDict.remove "tests" d)).
Proof.
  intros Ht. unfold Config.migrate_legacy_to_current_config. rewrite Ht.
  f_equal. apply migration_loop.
Qed.

Lemma keys_app {V : Type} (d1 d2 : list (string * V)) :
  PyDict.keys (d1 ++ d2) = PyDict.keys d1 ++ PyDict.keys d2.
Proof. apply map_app. Qed.

Lemma migration_loop_wf (items acc : dict) :
  NoDup (PyDict.keys items) ->
  (forall k, In k (PyDict.keys items) -> ~ In k (PyDict.keys acc)) ->
  fold_left
    (fun acc entry => PyDict.set (fst entry) (JDict [("tests", snd entry)]) acc)
    items acc
  = acc ++ map wrap_tests items.
Proof.
  revert acc. induction items as [|[name configs] items IH]; intros acc Hnd Hfresh.
  - simpl. now rewrite app_nil_r.
  - simpl in *. inversion Hnd as [|? ? Hnotin Hnd']; subst.
    rewrite set_fresh by auto.
    rewrite IH; auto.
    + now rewrite <- app_assoc.
    + intros k Hk. rewrite keys_app, in_app_iff. simpl.
      intros [Hacc | [Heq | []]].
      * apply (Hfresh k); auto.
      * subst. contradiction.
Qed.

Lemma acceptance_tests_of_wf (items : dict) :
  PyDict.wf items -> acceptance_tests_of items = map wrap_tests items.
Proof.
  intros Hwf. unfold acceptance_tests_of.
  rewrite migration_loop_wf; auto.
Qed.

(** C3. Migrating a legacy-shaped document (its top-level [tests] key maps
    category names to their entries) returns a document without the [tests]
    key, in which every key other than [tests] and [acceptance_tests] has
    the value it had, and [acceptance_tests] maps each category name to
    exactly the one-key mapping from [tests] to that category's original
    value, in the original order.  The example of the specification migrates
    to exactly the expected document. *)
Theorem C3_migration_reshapes_document :
  (forall (d items : dict),
      PyDict.get "tests" d = Some (JDict items) ->
      PyDict.wf items ->
      exists migrated,
        Config.migrate_legacy_to_current_config d = Returned migrated
        /\ PyDict.get "tests" migrated = None
        /\ (forall k, k <> "tests" -> k <> "acceptance_tests" ->
                      PyDict.get k migrated = PyDict.get k d)
        /\ PyDict.get "acceptance_tests" migrated
           = Some (JDict (map wrap_tests items)))
  /\ Config.migrate_legacy_to_current_config legacy_example
     = Returned migrated_example.
Proof.
  split; [|reflexivity].
  intros d items Ht Hwf. eexists. split; [apply (migrate_legacy_returns _ Ht)|].
  rewrite (acceptance_tests_of_wf Hwf). repeat split.
  - rewrite get_set_ne by discriminate. apply get_remove_eq.
  - intros k Hk1 Hk2. rewrite get_set_ne by congruence.
    apply get_remove_ne. congruence.
  - apply get_set_eq.
Qed.

Lemma C3_witness :
  exists migrated,
    Config.migrate_legacy_to_current_config legacy_example = Returned migrated
    /\ PyDict.get "tests" migrated = None
    /\ (forall k, k <> "tests" -> k <> "acceptance_tests" ->
                  PyDict.get k migrated = PyDict.get k legacy_example)
    /\ PyDict.get "acceptance_tests" migrated
       = Some
           (JDict
              (map wrap_tests [("spec", JList [JDict [("spec_path", JStr "a")]])])).
Proof.
  apply (proj1 C3_migration_reshapes_document legacy_example).
  - reflexivity.
  - repeat constructor. simpl. tauto.
Defined.

(** C4. A raw document is detected as legacy exactly when it has a
    top-level key named "tests"; with the legacy toggle enabled the adapter
    migrates (and logs the warning for) exactly the documents that are
    detected, and hands every other document on as it is. *)
Theorem C4_detection_drives_migration (d : dict) :
  (Config.is_legacy d = true <-> In "tests" (PyDict.keys d))
  /\ (Config.is_legacy d = true ->
      Config.legacy_format_adapter true d
      = ([Config.legacy_warning], Config.migrate_legacy_to_current_config d))
  /\ (Config.is_legacy d = false ->
      Config.legacy_format_adapter true d = ([], Returned d)).
Proof.
  unfold Config.legacy_format_adapter, Config.is_legacy. repeat split.
  - apply contains_in_keys.
  - apply contains_in_keys.
  - intros H. now rewrite H.
  - intros H. now rewrite H.
Qed.

Lemma C4_witness :
  (Config.is_legacy legacy_example = true
   <-> In "tests" (PyDict.keys legacy_example))
  /\ Config.legacy_format_adapter true legacy_example
     = ([Config.legacy_warning], Returned migrated_example)
  /\ Config.legacy_format_adapter true migrated_example
     = ([], Returned migrated_example).
Proof.
  split; [apply (C4_detection_drives_migration legacy_example)|].
  split.
  - apply (proj1 (proj2 (C4_detection_drives_migration legacy_example))).
    reflexivity.
  - apply (proj2 (proj2 (C4_detection_drives_migration migrated_example))).
    reflexivity.
Defined.

(** C8. For every document with both a top-level "tests" key and a
    top-level "acceptance_tests" key, detection fires (it looks at "tests"
    only), so the adapter runs the migration; whenever the migration returns
    a document, its "acceptance_tests" value is built from the entries of
    "tests" alone, and it does return one when "tests" holds a mapping; the
    outcome is the same whatever value "acceptance_tests" had in the
    input. *)
Theorem C8_migration_overwrites_acceptance_tests (d : dict) (t v : json) :
  PyDict.get "tests" d = Some t ->
  PyDict.get "acceptance_tests" d = Some v ->
  Config.is_legacy d = true
  /\ Config.legacy_format_adapter true d
     = ([Config.legacy_warning], Config.migrate_legacy_to_current_config d)
  /\ (forall items,
        t = JDict items ->
        exists migrated,
          Config.migrate_legacy_to_current_config d = Returned migrated
          /\ PyDict.get "acceptance_tests" migrated
             = Some (JDict (acceptance_tests_of items)))
  /\ (forall migrated,
        Config.migrate_legacy_to_current_config d = Returned migrated ->
        exists items,
          t = JDict items
          /\ PyDict.get "acceptance_tests" migrated
             = Some (JDict (acceptance_tests_of items)))
  /\ (forall v',
        Config.migrate_legacy_to_current_config
          (PyDict.set "acceptance_tests" v' d)
        = Config.migrate_legacy_to_current_config d).
Proof.
  intros Ht Ha.
  assert (Hl : Config.is_legacy d = true).
  { unfold Config.is_legacy, PyDict.contains. now rewrite Ht. }
  split; [exact Hl|]. split; [|split; [|split]].
  - unfold Config.legacy_format_adapter. now rewrite Hl.
  - intros items ->. eexists. split.
    + apply (migrate_legacy_returns _ Ht).
    + apply get_set_eq.
  - intros migrated Hm.
    destruct t as [| | | | |items];
      try (unfold Config.migrate_legacy_to_current_config in Hm;
           rewrite Ht in Hm; discriminate).
    exists items. split; [reflexivity|].
    rewrite (migrate_legacy_returns _ Ht) in Hm. injection Hm as <-.
    apply get_set_eq.
  - intros v'.
    assert (Ht' : PyDict.get "tests" (PyDict.set "acceptance_tests" v' d)
                  = Some t).
    { rewrite get_set_ne; [exact Ht | discriminate]. }
    destruct t as [| | | | |items];
      try (unfold Config.migrate_legacy_to_current_config;
           rewrite Ht, Ht'; reflexivity).
    rewrite (migrate_legacy_returns _ Ht), (migrate_legacy_returns _ Ht').
    rewrite remove_set_ne by discriminate. now rewrite set_set.
Qed.

Lemma C8_witness :
  let d := [("connector_image", JStr "x");
            ("acceptance_tests", JDict [("connection", JDict [])]);
            ("tests", JDict [("spec", JList [])])] in
  Config.is_legacy d = true
  /\ Config.legacy_format_adapter true d
     = ([Config.legacy_warning], Config.migrate_legacy_to_current_config d)
  /\ (forall items,
        JDict [("spec", JList [])] = JDict items ->
        exists migrated,
          Config.migrate_legacy_to_current_config d = Returned migrated
          /\ PyDict.get "acceptance_tests" migrated
             = Some (JDict (acceptance_tests_of items)))
  /\ (forall migrated,
        Config.migrate_legacy_to_current_config d = Returned migrated ->
        exists items,
          JDict [("spec", JList [])] = JDict items
          /\ PyDict.get "acceptance_tests" migrated
             = Some (JDict (acceptance_tests_of items)))
  /\ (forall v',
        Config.migrate_legacy_to_current_config
          (PyDict.set "acceptance_tests" v' d)
        = Config.migrate_legacy_to_current_config d).
Proof.
  intro d.
  apply (@C8_migration_overwrites_acceptance_tests d
           (JDict [("spec", JList [])])
           (JDict [("connection", JDict [])])); reflexivity.
Defined.

(** C9. A category wrapper given a bypass reason together with an explicitly
    empty list of tests is accepted: the mutual-exclusion check only fires on
    a non-empty list. *)
Theorem C9_bypass_reason_with_empty_tests
  (T : Type) (parse_test : dict -> result T) (d : dict) (v : json)
  (reason : string) :
  PyDict.get "bypass_reason" d = Some v ->
  allow_none str_validator v = Ok (Some reason) ->
  PyDict.get "tests" d = Some (JList []) ->
  unreserved d = true ->
  construct (GenericTestConfig.parse parse_test) d
  = Valid (GenericTestConfig.make (Some reason) (Some [])).
Proof.
  intros Hb Hv Ht Hu. rewrite (construct_unreserved _ _ Hu).
  unfold outcome_of, GenericTestConfig.parse.
  unfold defaulted, always. rewrite Hb, Ht, Hv. simpl.
  unfold GenericTestConfig.no_bypass_reason_when_tests_is_set. reflexivity.
Qed.

Lemma C9_witness :
  construct (GenericTestConfig.parse SpecTestConfig.parse)
    [("bypass_reason", JStr "not applicable"); ("tests", JList [])]
  = Valid (GenericTestConfig.make (Some "not applicable") (Some [])).
Proof.
  apply (@C9_bypass_reason_with_empty_tests _ SpecTestConfig.parse _
           (JStr "not applicable")); reflexivity.
Defined.

(** Failure of a model, read off the collected errors. *)
Lemma construct_invalid {A : Type} (parse : dict -> result A) (d : dict)
  (e : error) :
  unreserved d = true ->
  In e (errs_of (parse d)) ->
  exists errors, construct parse d = Invalid errors /\ In e errors.
Proof.
  intros Hu He. rewrite (construct_unreserved _ _ Hu). unfold outcome_of.
  destruct (in_errs_of _ _ He) as [es [Hes Hin]]. rewrite Hes. eauto.
Qed.

(** C10. When [previous_connector_version] is omitted the model is built with
    the default "latest", which is not checked against the pattern; when the
    string "latest" is supplied for it, validation fails with a pattern error
    on that field, because "latest" does not match [SEMVER_REGEX]. *)
Theorem C10_default_latest_is_not_checked :
  (forall (d : dict) (disable : option string),
      PyDict.get "previous_connector_version" d = None ->
      defaulted d "disable_for_version" None
        (allow_none BackwardCompatibilityTestsConfig.semver) = Ok disable ->
      extra d BackwardCompatibilityTestsConfig.fields = [] ->
      construct BackwardCompatibilityTestsConfig.parse d
      = Valid (BackwardCompatibilityTestsConfig.make "latest" disable))
  /\ (forall d : dict,
        PyDict.get "previous_connector_version" d = Some (JStr "latest") ->
        unreserved d = true ->
        exists errors,
          construct BackwardCompatibilityTestsConfig.parse d = Invalid errors
          /\ In (mkError [LKey "previous_connector_version"] StrRegexError)
               errors)
  /\ re_match SEMVER_REGEX "latest" = false.
Proof.
  split; [|split; [|reflexivity]].
  - intros d disable Hp Hd Hx.
    rewrite construct_unreserved
      by (apply (extra_none_unreserved _ _ Hx); simpl; intuition discriminate).
    unfold outcome_of, BackwardCompatibilityTestsConfig.parse.
    rewrite (forbid_extra_none _ _ _ Hx), Hd.
    unfold defaulted. now rewrite Hp.
  - intros d Hp Hu. apply construct_invalid; [exact Hu|].
    unfold BackwardCompatibilityTestsConfig.parse.
    apply forbid_extra_keeps. rewrite !errs_of_ap.
    apply in_or_app. left. apply in_or_app. right.
    unfold defaulted. rewrite Hp. simpl. now left.
Qed.

Lemma C10_witness :
  construct BackwardCompatibilityTestsConfig.parse []
  = Valid (BackwardCompatibilityTestsConfig.make "latest" None)
  /\ exists errors,
       construct BackwardCompatibilityTestsConfig.parse
         [("previous_connector_version", JStr "latest")]
       = Invalid errors
       /\ In (mkError [LKey "previous_connector_version"] StrRegexError) errors.
Proof.
  split.
  - apply (proj1 C10_default_latest_is_not_checked []); reflexivity.
  - apply (proj1 (proj2 C10_default_latest_is_not_checked)
             [("previous_connector_version", JStr "latest")]);
      reflexivity.
Defined.

(** ** Expected records: the two cross-field rules *)

Section Flags.
Variables (d : dict) (name : string) (default b : bool).
Hypothesis Hflag : flag d name default = Some b.

Lemma flag_defaulted :
  defaulted d name default (not_none bool_validator) = Ok b.
Proof.
  unfold flag, defaulted in *. destruct (PyDict.get name d) as [v|].
  - destruct (not_none bool_validator v); simpl in *; congruence.
  - congruence.
Qed.

Lemma flag_always (check : bool -> result bool) :
  always d name (JBool default)
    (fun v => not_none bool_validator v >>= check)
  = at_loc (LKey name) (check b).
Proof.
  unfold flag, always in *. destruct (PyDict.get name d) as [v|].
  - destruct (not_none bool_validator v); simpl in *; congruence.
  - simpl. congruence.
Qed.
End Flags.

Section ExpectedRecords.
Variables (d : dict) (ef eo er : bool).
Hypothesis Hef : flag d "extra_fields" false = Some ef.
Hypothesis Heo : flag d "exact_order" false = Some eo.
Hypothesis Her : flag d "extra_records" true = Some er.

(** All the errors of an [ExpectedRecordsConfig], in the order they are
    reported. *)
Lemma expected_records_errors :
  errs_of (ExpectedRecordsConfig.parse d)
  = errs_of (required d "path" (not_none path_validator))
    ++ (if ef && negb eo then [exact_order_error] else [])
    ++ (if ef && er then [extra_records_error] else [])
    ++ map extra_error (sorted (extra d ExpectedRecordsConfig.fields)).
Proof.
  unfold ExpectedRecordsConfig.parse. cbv zeta.
  rewrite (flag_defaulted _ _ _ Hef), (flag_always _ _ _ Heo),
    (flag_always _ _ _ Her).
  rewrite errs_of_forbid_extra, !errs_of_ap, <- !app_assoc.
  destruct (required d "path" (not_none path_validator)); destruct ef, eo, er;
    reflexivity.
Qed.

Lemma expected_records_valid (p : string) :
  required d "path" (not_none path_validator) = Ok p ->
  extra d ExpectedRecordsConfig.fields = [] ->
  ef && negb eo = false ->
  ef && er = false ->
  ExpectedRecordsConfig.parse d = Ok (ExpectedRecordsConfig.make p ef eo er).
Proof.
  intros Hp Hx H1 H2. unfold ExpectedRecordsConfig.parse. cbv zeta.
  rewrite (flag_defaulted _ _ _ Hef), (flag_always _ _ _ Heo),
    (flag_always _ _ _ Her).
  rewrite (forbid_extra_none _ _ _ Hx), Hp.
  destruct ef, eo, er; try discriminate; reflexivity.
Qed.
End ExpectedRecords.

Lemma construct_errors {A : Type} (parse : dict -> result A) (d : dict) :
  unreserved d = true ->
  errs_of (parse d) <> [] ->
  construct parse d = Invalid (errs_of (parse d)).
Proof.
  intros Hu. rewrite (construct_unreserved _ _ Hu).
  destruct (parse d); simpl; congruence.
Qed.

(** C2. For every raw mapping given to [ExpectedRecordsConfig], with each
    flag read as the mapping gives it (default when absent):
    extra_fields on with exact_order off fails with the exact_order error;
    extra_fields, exact_order and extra_records all on fails with the
    extra_records error; extra_fields and exact_order on with extra_records
    off succeeds, and extra_fields off succeeds for every value of the other
    two flags (given a valid path and no unknown key); and when both rules
    are broken the exact_order error is reported before the extra_records
    error.  The failures are validation errors for a mapping that can be
    passed to the constructor, that is without the reserved keyword. *)
Theorem C2_expected_records_rules (d : dict) :
  (flag d "extra_fields" false = Some true ->
   flag d "exact_order" false = Some false ->
   unreserved d = true ->
   exists errors,
     construct ExpectedRecordsConfig.parse d = Invalid errors
     /\ In exact_order_error errors)
  /\ (flag d "extra_fields" false = Some true ->
      flag d "exact_order" false = Some true ->
      flag d "extra_records" true = Some true ->
      unreserved d = true ->
      exists errors,
        construct ExpectedRecordsConfig.parse d = Invalid errors
        /\ In extra_records_error errors)
  /\ (forall p : string,
        flag d "extra_fields" false = Some true ->
        flag d "exact_order" false = Some true ->
        flag d "extra_records" true = Some false ->
        required d "path" (not_none path_validator) = Ok p ->
        extra d ExpectedRecordsConfig.fields = [] ->
        construct ExpectedRecordsConfig.parse d
        = Valid (ExpectedRecordsConfig.make p true true false))
  /\ (forall (p : string) (eo er : bool),
        flag d "extra_fields" false = Some false ->
        flag d "exact_order" false = Some eo ->
        flag d "extra_records" true = Some er ->
        required d "path" (not_none path_validator) = Ok p ->
        extra d ExpectedRecordsConfig.fields = [] ->
        construct ExpectedRecordsConfig.parse d
        = Valid (ExpectedRecordsConfig.make p false eo er))
  /\ (flag d "extra_fields" false = Some true ->
      flag d "exact_order" false = Some false ->
      flag d "extra_records" true = Some true ->
      unreserved d = true ->
      exists before between after,
        construct ExpectedRecordsConfig.parse d
        = Invalid
            (before ++ exact_order_error :: between
             ++ extra_records_error :: after)).
Proof.
  repeat split.
  - intros Hef Heo Hu. apply construct_invalid; [exact Hu|].
    unfold ExpectedRecordsConfig.parse. cbv zeta.
    rewrite (flag_defaulted _ _ _ Hef), (flag_always _ _ _ Heo).
    rewrite errs_of_forbid_extra, !errs_of_ap.
    apply in_or_app. left. apply in_or_app. left. apply in_or_app. right.
    destruct (required d "path" (not_none path_validator)); simpl; now left.
  - intros Hef Heo Her Hu. apply construct_invalid; [exact Hu|].
    rewrite (expected_records_errors _ Hef Heo Her). simpl.
    apply in_or_app. right. now left.
  - intros p Hef Heo Her Hp Hx.
    rewrite construct_unreserved
      by (apply (extra_none_unreserved _ _ Hx); simpl; intuition discriminate).
    now rewrite (expected_records_valid _ Hef Heo Her Hp Hx).
  - intros p eo er Hef Heo Her Hp Hx.
    rewrite construct_unreserved
      by (apply (extra_none_unreserved _ _ Hx); simpl; intuition discriminate).
    now rewrite (expected_records_valid _ Hef Heo Her Hp Hx).
  - intros Hef Heo Her Hu.
    exists (errs_of (required d "path" (not_none path_validator))), [],
      (map extra_error (sorted (extra d ExpectedRecordsConfig.fields))).
    rewrite construct_errors;
      [| exact Hu |]; rewrite (expected_records_errors _ Hef Heo Her); simpl.
    + reflexivity.
    + destruct (errs_of (required d "path" (not_none path_validator)));
        discriminate.
Qed.

Lemma C2_witness :
  (exists errors,
      construct ExpectedRecordsConfig.parse
        [("path", JStr "records.jsonl"); ("extra_fields", JBool true)]
      = Invalid errors
      /\ In exact_order_error errors)
  /\ (exists errors,
        construct ExpectedRecordsConfig.parse
          [("path", JStr "records.jsonl"); ("extra_fields", JBool true);
           ("exact_order", JBool true)]
        = Invalid errors
        /\ In extra_records_error errors)
  /\ construct ExpectedRecordsConfig.parse
       [("path", JStr "records.jsonl"); ("extra_fields", JBool true);
        ("exact_order", JBool true); ("extra_records", JBool false)]
     = Valid (ExpectedRecordsConfig.make "records.jsonl" true true false)
  /\ construct ExpectedRecordsConfig.parse
       [("path", JStr "records.jsonl"); ("exact_order", JBool true)]
     = Valid (ExpectedRecordsConfig.make "records.jsonl" false true true)
  /\ exists before between after,
       construct ExpectedRecordsConfig.parse
         [("path", JStr "records.jsonl"); ("extra_fields", JBool true);
          ("exact_order", JBool false)]
       = Invalid
           (before ++ exact_order_error :: between
            ++ extra_records_error :: after).
Proof.
  split; [|split; [|split; [|split]]].
  - apply (proj1 (C2_expected_records_rules _)); reflexivity.
  - apply (proj1 (proj2 (C2_expected_records_rules _))); reflexivity.
  - apply (proj1 (proj2 (proj2 (C2_expected_records_rules _)))); reflexivity.
  - apply (proj1 (proj2 (proj2 (proj2 (C2_expected_records_rules _)))));
      reflexivity.
  - apply (proj2 (proj2 (proj2 (proj2 (C2_expected_records_rules _)))));
      reflexivity.
Defined.

(** ** The category wrapper *)

Lemma is_ok_ap {A B : Type} (rf : result (A -> B)) (ra : result A) :
  is_ok (rf <*> ra) = is_ok rf && is_ok ra.
Proof. now destruct rf, ra. Qed.

Lemma is_ok_at_loc {A : Type} (i : loc_item) (r : result A) :
  is_ok (at_loc i r) = is_ok r.
Proof. now destruct r. Qed.

Lemma construct_not_ok {A : Type} (parse : dict -> result A) (d : dict) :
  unreserved d = true ->
  is_ok (parse d) = false -> exists errors, construct parse d = Invalid errors.
Proof.
  intros Hu. rewrite (construct_unreserved _ _ Hu).
  destruct (parse d); simpl; [discriminate | eauto].
Qed.

Lemma string_of_uint_nonempty (u : Decimal.uint) :
  NilZero.string_of_uint u <> "".
Proof. destruct u; discriminate. Qed.

(** Only the empty string validates to the empty string. *)
Lemma str_validator_nonempty (v : json) (s : string) :
  str_validator v = Ok s -> v <> JStr "" -> s <> "".
Proof.
  destruct v as [|b|n|s'| |]; simpl; try discriminate; intros [= <-] Hv.
  - destruct b; discriminate.
  - unfold NilZero.string_of_int. destruct (Z.to_int n).
    + apply string_of_uint_nonempty.
    + discriminate.
  - congruence.
Qed.

Lemma list_items_cons {A : Type} (V : json -> result A) (i : Z) (x : json)
  (l : list json) (ys : list A) :
  list_items V i (x :: l) = Ok ys -> exists y ys', ys = y :: ys'.
Proof.
  simpl. destruct (at_loc (LIdx i) (V x)), (list_items V (i + 1) l);
    simpl; intros [= <-]; eauto.
Qed.

Section Wrapper.
Variables (T : Type) (parse_test : dict -> result T).

Let item := not_none (model_validate parse_test).

Lemma wrapper_both_rejected (d : dict) (v x : json) (items : list json) :
  PyDict.get "bypass_reason" d = Some v ->
  v <> JNull -> v <> JStr "" ->
  PyDict.get "tests" d = Some (JList (x :: items)) ->
  is_ok (GenericTestConfig.parse parse_test d) = false.
Proof.
  intros Hb Hnull Hempty Ht. unfold GenericTestConfig.parse. cbv zeta.
  rewrite !is_ok_ap. unfold defaulted, always. rewrite Hb, Ht.
  rewrite !is_ok_at_loc.
  change (allow_none (list_validate (not_none (model_validate parse_test)))
            (JList (x :: items)))
    with (fmap Some (list_items item 0 (x :: items))).
  destruct (list_items item 0 (x :: items)) as [ys|] eqn:Hl;
    [|apply andb_false_r].
  destruct (@list_items_cons _ _ _ _ _ _ Hl) as [y [ys' ->]].
  destruct (str_validator v) as [reason|] eqn:Hs.
  - pose proof (@str_validator_nonempty _ _ Hs Hempty) as Hne.
    replace (allow_none str_validator v) with (Ok (A:=option string) (Some reason)).
    + simpl. unfold GenericTestConfig.no_bypass_reason_when_tests_is_set.
      simpl. destruct (String.eqb_spec reason ""); [contradiction | reflexivity].
    + destruct v; simpl in *; unfold raise in *; congruence.
  - replace (allow_none str_validator v) with (Err (A:=option string) es).
    + reflexivity.
    + destruct v; simpl in *; unfold raise in *; congruence.
Qed.
Lemma allow_none_str (v : json) (reason : string) :
  str_validator v = Ok reason -> v <> JNull ->
  allow_none str_validator v = Ok (Some reason).
Proof.
  intros Hs Hnull. destruct v; try congruence; simpl in *;
    unfold raise in *; congruence.
Qed.

Lemma wrapper_both_error (d : dict) (v x : json) (items : list json)
  (reason : string) (tests : list T) :
  PyDict.get "bypass_reason" d = Some v ->
  v <> JNull -> v <> JStr "" ->
  PyDict.get "tests" d = Some (JList (x :: items)) ->
  str_validator v = Ok reason ->
  list_items item 0 (x :: items) = Ok tests ->
  GenericTestConfig.parse parse_test d = Err [bypass_reason_error].
Proof.
  intros Hb Hnull Hempty Ht Hs Hl.
  pose proof (@str_validator_nonempty _ _ Hs Hempty) as Hne.
  destruct (@list_items_cons _ _ _ _ _ _ Hl) as [y [ys' ->]].
  unfold GenericTestConfig.parse. cbv zeta.
  unfold defaulted, always. rewrite Hb, Ht.
  rewrite (@allow_none_str _ _ Hs Hnull).
  change (allow_none (list_validate (not_none (model_validate parse_test)))
            (JList (x :: items)))
    with (fmap Some (list_items item 0 (x :: items))).
  rewrite Hl. simpl.
  unfold GenericTestConfig.no_bypass_reason_when_tests_is_set. simpl.
  destruct (String.eqb_spec reason ""); [contradiction | reflexivity].
Qed.
End Wrapper.

(** C1, as the claim states it, fails: a wrapper that is given an empty
    string as bypass reason together with a non-empty list of tests supplies
    both and is constructed. *)
Lemma C1_counterexample :
  construct (GenericTestConfig.parse SpecTestConfig.parse)
    [("bypass_reason", JStr ""); ("tests", JList [JDict []])]
  = Valid
      (GenericTestConfig.make (Some "")
         (Some
            [SpecTestConfig.make "secrets/spec.json" "secrets/config.json" None
               BackwardCompatibilityTestsConfig.default])).
Proof. reflexivity. Qed.

(** C1, amended.  For every category wrapper built from a raw mapping that
    can be passed to the constructor (it does not hold the reserved
    keyword): when the mapping supplies both a non-empty bypass reason (a
    value other than null and the empty string) and a non-empty list of
    tests, construction fails, and with a valid reason and valid entries the
    failure is exactly the mutual-exclusion error on [tests]; when it
    supplies only a bypass reason, or only a list of valid tests, or neither,
    construction succeeds. *)
Theorem C1_bypass_reason_excludes_tests
  (T : Type) (parse_test : dict -> result T) (d : dict) :
  unreserved d = true ->
  (forall (v x : json) (items : list json),
      PyDict.get "bypass_reason" d = Some v ->
      v <> JNull -> v <> JStr "" ->
      PyDict.get "tests" d = Some (JList (x :: items)) ->
      exists errors,
        construct (GenericTestConfig.parse parse_test) d = Invalid errors
        /\ (forall reason tests,
               str_validator v = Ok reason ->
               list_items (not_none (model_validate parse_test)) 0 (x :: items)
               = Ok tests ->
               errors = [bypass_reason_error]))
  /\ (forall (v : json) (reason : string),
        PyDict.get "bypass_reason" d = Some v ->
        allow_none str_validator v = Ok (Some reason) ->
        PyDict.get "tests" d = None ->
        construct (GenericTestConfig.parse parse_test) d
        = Valid (GenericTestConfig.make (Some reason) None))
  /\ (forall (items : list json) (tests : list T),
        PyDict.get "bypass_reason" d = None ->
        PyDict.get "tests" d = Some (JList items) ->
        list_items (not_none (model_validate parse_test)) 0 items = Ok tests ->
        construct (GenericTestConfig.parse parse_test) d
        = Valid (GenericTestConfig.make None (Some tests)))
  /\ (PyDict.get "bypass_reason" d = None ->
      PyDict.get "tests" d = None ->
      construct (GenericTestConfig.parse parse_test) d
      = Valid (GenericTestConfig.make None None)).
Proof.
  intros Hu. rewrite (construct_unreserved _ _ Hu). repeat split.
  - intros v x items Hb Hnull Hempty Ht.
    destruct (str_validator v) as [reason|es1] eqn:Hs;
      [destruct (list_items (not_none (model_validate parse_test)) 0
                   (x :: items)) as [tests|es2] eqn:Hl|].
    + exists [bypass_reason_error]. split; [|reflexivity].
      now rewrite (@wrapper_both_error _ parse_test _ _ _ _ _ _
                     Hb Hnull Hempty Ht Hs Hl).
    + pose proof (@wrapper_both_rejected _ parse_test _ _ _ _
                    Hb Hnull Hempty Ht) as Hno.
      destruct (GenericTestConfig.parse parse_test d) as [w|errors];
        [discriminate|].
      exists errors. split; [reflexivity | discriminate].
    + pose proof (@wrapper_both_rejected _ parse_test _ _ _ _
                    Hb Hnull Hempty Ht) as Hno.
      destruct (GenericTestConfig.parse parse_test d) as [w|errors];
        [discriminate|].
      exists errors. split; [reflexivity | discriminate].
  - intros v reason Hb Hv Ht. unfold outcome_of, GenericTestConfig.parse.
    unfold defaulted, always. rewrite Hb, Ht, Hv. reflexivity.
  - intros items tests Hb Ht Hl. unfold outcome_of, GenericTestConfig.parse.
    unfold defaulted, always. rewrite Hb, Ht.
    change (allow_none (list_validate (not_none (model_validate parse_test)))
              (JList items))
      with (fmap Some
              (list_items (not_none (model_validate parse_test)) 0 items)).
    rewrite Hl. simpl.
    unfold GenericTestConfig.no_bypass_reason_when_tests_is_set. simpl.
    now rewrite andb_false_r.
  - intros Hb Ht. unfold outcome_of, GenericTestConfig.parse.
    unfold defaulted, always. rewrite Hb, Ht. reflexivity.
Qed.

Lemma C1_witness :
  (exists errors,
      construct (GenericTestConfig.parse SpecTestConfig.parse)
        [("bypass_reason", JStr "no spec"); ("tests", JList [JDict []])]
      = Invalid errors
      /\ (forall reason tests,
             str_validator (JStr "no spec") = Ok reason ->
             list_items (not_none (model_validate SpecTestConfig.parse)) 0
               [JDict []] = Ok tests ->
             errors = [bypass_reason_error]))
  /\ construct (GenericTestConfig.parse SpecTestConfig.parse)
       [("bypass_reason", JStr "no spec")]
     = Valid (GenericTestConfig.make (Some "no spec") None)
  /\ construct (GenericTestConfig.parse ConnectionTestConfig.parse)
       [("tests", JList [JDict [("status", JStr "failed")]])]
     = Valid
         (GenericTestConfig.make None
            (Some
               [ConnectionTestConfig.make "secrets/config.json"
                  ConnectionTestConfig.Failed None]))
  /\ construct (GenericTestConfig.parse SpecTestConfig.parse) []
     = Valid (GenericTestConfig.make None None).
Proof.
  split; [|split; [|split]].
  - apply (proj1 (@C1_bypass_reason_excludes_tests _ SpecTestConfig.parse
                    [("bypass_reason", JStr "no spec");
                     ("tests", JList [JDict []])] eq_refl));
      [reflexivity | discriminate | discriminate | reflexivity].
  - apply (proj1 (proj2 (@C1_bypass_reason_excludes_tests _
                           SpecTestConfig.parse
                           [("bypass_reason", JStr "no spec")] eq_refl))
             (JStr "no spec")); reflexivity.
  - apply (proj1 (proj2 (proj2
             (@C1_bypass_reason_excludes_tests _ ConnectionTestConfig.parse
                [("tests", JList [JDict [("status", JStr "failed")]])]
                eq_refl)))
             [JDict [("status", JStr "failed")]]); reflexivity.
  - apply (proj2 (proj2 (proj2
             (@C1_bypass_reason_excludes_tests _ SpecTestConfig.parse []
                eq_refl))));
      reflexivity.
Defined.

(** ** The version pattern *)

Lemma nonempty_app_r {A : Type} (l : list A) (x : A) : nonempty (l ++ [x]) = true.
Proof. now destruct l. Qed.

Lemma nonempty_flat_map {A B : Type} (f : A -> list B) (l : list A) :
  (forall x, nonempty (f x) = true) ->
  nonempty (flat_map f l) = nonempty l.
Proof.
  intros Hf. destruct l as [|x l]; simpl; auto.
  specialize (Hf x). destruct (f x); [discriminate | reflexivity].
Qed.

Lemma star_run_nonempty (step : list ascii -> list (list ascii)) (n : nat)
  (s : list ascii) : nonempty (star_run step n s) = true.
Proof. destruct n; simpl; auto using nonempty_app_r. Qed.

Lemma is_digit_split (c : ascii) :
  is_digit c = Ascii.eqb "0" c || nonzero_digit c.
Proof. destruct c as [[] [] [] [] [] [] [] []]; reflexivity. Qed.

Lemma run_numeric_identifier (s : list ascii) :
  nonempty (run numeric_identifier s)
  = match s with c :: _ => is_digit c | [] => false end.
Proof.
  destruct s as [|c t]; [reflexivity|].
  rewrite is_digit_split. unfold numeric_identifier.
  cbn [run flat_map].
  destruct (Ascii.eqb "0" c); [reflexivity|].
  destruct (nonzero_digit c); [|reflexivity].
  cbn [flat_map app orb]. rewrite app_nil_r. apply star_run_nonempty.
Qed.

Lemma nonempty_run_cat_opt (r1 r2 : regex) (s : list ascii) :
  nonempty (run (Cat r1 (Opt r2)) s) = nonempty (run r1 s).
Proof.
  cbn [run]. apply nonempty_flat_map. intros x. apply nonempty_app_r.
Qed.

(** [re.match] anchors the pattern at the start only, and everything after
    the major version is optional. *)
Lemma re_match_semver (s : string) :
  re_match SEMVER_REGEX s = starts_with_digit s.
Proof.
  unfold re_match.
  change (match run SEMVER_REGEX (list_ascii_of_string s) with
          | [] => false
          | _ :: _ => true
          end)
    with (nonempty (run SEMVER_REGEX (list_ascii_of_string s))).
  unfold SEMVER_REGEX. rewrite nonempty_run_cat_opt, run_numeric_identifier.
  now destruct s.
Qed.

Lemma re_fullmatch_match (r : regex) (s : string) :
  re_fullmatch r s = true -> re_match r s = true.
Proof.
  unfold re_fullmatch, re_match.
  destruct (run r (list_ascii_of_string s)); [discriminate | reflexivity].
Qed.

Lemma spec_grammar_starts_with_digit (s : string) :
  in_spec_grammar s = true -> starts_with_digit s = true.
Proof.
  intros H. apply re_fullmatch_match in H. unfold re_match in H.
  change (nonempty (run SPEC_SEMVER_GRAMMAR (list_ascii_of_string s)) = true)
    in H.
  unfold SPEC_SEMVER_GRAMMAR in H.
  rewrite nonempty_run_cat_opt, run_numeric_identifier in H.
  now destruct s.
Qed.

Lemma semver_accepts (s : string) :
  starts_with_digit s = true ->
  BackwardCompatibilityTestsConfig.semver (JStr s) = Ok s.
Proof.
  intros H. unfold BackwardCompatibilityTestsConfig.semver. simpl.
  unfold constr_regex. now rewrite re_match_semver, H.
Qed.

Lemma semver_rejects (s : string) :
  starts_with_digit s = false ->
  BackwardCompatibilityTestsConfig.semver (JStr s) = raise StrRegexError.
Proof.
  intros H. unfold BackwardCompatibilityTestsConfig.semver. simpl.
  unfold constr_regex. now rewrite re_match_semver, H.
Qed.

(** C6, as the claim states it, fails: "1.2-rc1" (a prerelease directly after
    the minor version) is accepted by both version fields and is outside the
    grammar major[.minor[.patch[-prerelease]]]. *)
Lemma C6_counterexample :
  construct BackwardCompatibilityTestsConfig.parse
    [("previous_connector_version", JStr "1.2-rc1");
     ("disable_for_version", JStr "1.2-rc1")]
  = Valid (BackwardCompatibilityTestsConfig.make "1.2-rc1" (Some "1.2-rc1"))
  /\ in_spec_grammar "1.2-rc1" = false.
Proof. split; reflexivity. Qed.

(** C6, amended.  Every string the pattern matches in full, that is every
    string of the form major[.minor[.patch][-prerelease]] where the
    prerelease may follow the minor version directly, is accepted by both
    version fields; so is every string of the grammar
    major[.minor[.patch[-prerelease]]]; every string that does not begin
    with a decimal digit is rejected with a pattern error on the field it was
    supplied for (in a mapping that can be passed to the constructor, that
    is without the reserved keyword).  In particular "1.2.3-rc1" is accepted
    and "v1.2" is rejected. *)
Theorem C6_semver_fields (s : string) :
  (re_fullmatch SEMVER_REGEX s = true \/ in_spec_grammar s = true ->
   construct BackwardCompatibilityTestsConfig.parse
     [("previous_connector_version", JStr s); ("disable_for_version", JStr s)]
   = Valid (BackwardCompatibilityTestsConfig.make s (Some s)))
  /\ (starts_with_digit s = false ->
      forall (d : dict) (name : string),
        In name BackwardCompatibilityTestsConfig.fields ->
        PyDict.get name d = Some (JStr s) ->
        unreserved d = true ->
        exists errors,
          construct BackwardCompatibilityTestsConfig.parse d = Invalid errors
          /\ In (mkError [LKey name] StrRegexError) errors)
  /\ re_fullmatch SEMVER_REGEX "1.2.3-rc1" = true
  /\ starts_with_digit "v1.2" = false.
Proof.
  split; [|split; [|split; reflexivity]].
  - intros H.
    assert (Hd : starts_with_digit s = true).
    { destruct H as [H | H].
      - apply re_fullmatch_match in H. now rewrite re_match_semver in H.
      - now apply spec_grammar_starts_with_digit. }
    rewrite construct_unreserved by reflexivity.
    unfold outcome_of, BackwardCompatibilityTestsConfig.parse.
    rewrite forbid_extra_none by reflexivity.
    unfold defaulted. cbn [PyDict.get String.eqb Ascii.eqb Bool.eqb].
    unfold not_none, allow_none. rewrite (semver_accepts _ Hd). reflexivity.
  - intros Hd d name Hname Hget Hu. apply construct_invalid; [exact Hu|].
    unfold BackwardCompatibilityTestsConfig.parse.
    apply forbid_extra_keeps. rewrite !errs_of_ap.
    destruct Hname as [<- | [<- | []]].
    + apply in_or_app. left. apply in_or_app. right.
      unfold defaulted. rewrite Hget. unfold not_none.
      rewrite (semver_rejects _ Hd). now left.
    + apply in_or_app. right.
      unfold defaulted. rewrite Hget. unfold allow_none.
      rewrite (semver_rejects _ Hd). now left.
Qed.

Lemma C6_witness :
  construct BackwardCompatibilityTestsConfig.parse
    [("previous_connector_version", JStr "1.2.3-rc1");
     ("disable_for_version", JStr "1.2.3-rc1")]
  = Valid (BackwardCompatibilityTestsConfig.make "1.2.3-rc1" (Some "1.2.3-rc1"))
  /\ exists errors,
       construct BackwardCompatibilityTestsConfig.parse
         [("disable_for_version", JStr "v1.2")]
       = Invalid errors
       /\ In (mkError [LKey "disable_for_version"] StrRegexError) errors.
Proof.
  split.
  - apply (proj1 (C6_semver_fields "1.2.3-rc1")). left. reflexivity.
  - apply (proj1 (proj2 (C6_semver_fields "v1.2"))
             eq_refl [("disable_for_version", JStr "v1.2")]).
    + simpl. tauto.
    + reflexivity.
    + reflexivity.
Defined.

(** ** The legacy toggle *)

Lemma get_not_in_keys {V : Type} (k : string) (d : list (string * V)) :
  ~ In k (PyDict.keys d) -> PyDict.get k d = None.
Proof.
  intros Hnot. destruct (PyDict.get k d) as [v|] eqn:Hget; auto.
  exfalso. apply Hnot, get_in_keys. eauto.
Qed.

(** C7, as the claim states it, fails: a document with a top-level "tests"
    key and no "acceptance_tests" key whose "tests" value is not a mapping
    is not migrated under the enabled toggle; the migration raises and
    construction does not proceed. *)
Lemma C7_counterexample :
  In "tests" (PyDict.keys [("connector_image", JStr "x"); ("tests", JList [])])
  /\ ~ In "acceptance_tests"
        (PyDict.keys [("connector_image", JStr "x"); ("tests", JList [])])
  /\ Config.construct_with true
       [("connector_image", JStr "x"); ("tests", JList [])]
     = ([Config.legacy_warning], Crashed (AttributeError "items")).
Proof.
  split; [simpl; tauto|]. split; [simpl; intuition discriminate | reflexivity].
Qed.

(** C7, amended.  With the legacy toggle disabled the adapter returns every
    document unchanged, so a document with a top-level "tests" key and no
    "acceptance_tests" key fails field validation: "acceptance_tests" is
    missing and "tests" is an unknown key.  With the toggle enabled the
    adapter logs the warning and runs the migration on such a document;
    when its "tests" value is a mapping the migration returns the migrated
    document and construction goes on with the field validation of that
    document.  (Construction is that of a document that can be passed to
    the constructor, that is without the reserved keyword.) *)
Theorem C7_legacy_toggle (d : dict) :
  Config.legacy_format_adapter false d = ([], Returned d)
  /\ (In "tests" (PyDict.keys d) ->
      ~ In "acceptance_tests" (PyDict.keys d) ->
      unreserved d = true ->
      exists errors,
        Config.construct_with false d = ([], Invalid errors)
        /\ In (mkError [LKey "acceptance_tests"] MissingError) errors
        /\ In (extra_error "tests") errors)
  /\ (In "tests" (PyDict.keys d) ->
      Config.legacy_format_adapter true d
      = ([Config.legacy_warning], Config.migrate_legacy_to_current_config d))
  /\ (forall items : dict,
        PyDict.get "tests" d = Some (JDict items) ->
        let migrated :=
          PyDict.set "acceptance_tests" (JDict (acceptance_tests_of items))
            (PyDict.remove "tests" d) in
        Config.migrate_legacy_to_current_config d = Returned migrated
        /\ (unreserved d = true ->
            Config.construct_with true d
            = ([Config.legacy_warning],
               outcome_of (Config.validate_fields migrated)))).
Proof.
  split; [reflexivity|]. split; [|split].
  - intros Ht Ha Hu.
    assert (H1 : In (mkError [LKey "acceptance_tests"] MissingError)
                   (errs_of (Config.validate_fields d))).
    { unfold Config.validate_fields. apply forbid_extra_keeps.
      rewrite !errs_of_ap.
      apply in_or_app. left. apply in_or_app. left. apply in_or_app. right.
      unfold required. rewrite (get_not_in_keys _ _ Ha). now left. }
    assert (H2 : In (extra_error "tests") (errs_of (Config.validate_fields d))).
    { unfold Config.validate_fields. apply forbid_extra_unknown; auto.
      simpl. intuition discriminate. }
    destruct (in_errs_of _ _ H1) as [es [Hes Hin]].
    rewrite Hes in H2. exists es.
    unfold Config.construct_with. rewrite Hu. simpl. rewrite Hes. auto.
  - intros Ht. apply contains_in_keys in Ht.
    unfold Config.legacy_format_adapter, Config.is_legacy. now rewrite Ht.
  - intros items Ht migrated.
    pose proof (migrate_legacy_returns _ Ht) as Hm. split; [exact Hm|].
    intros Hu.
    unfold Config.construct_with, Config.legacy_format_adapter,
      Config.is_legacy, PyDict.contains.
    rewrite Hu, Ht. simpl. now rewrite Hm.
Qed.

Lemma C7_witness :
  (exists errors,
      Config.construct_with false legacy_example = ([], Invalid errors)
      /\ In (mkError [LKey "acceptance_tests"] MissingError) errors
      /\ In (extra_error "tests") errors)
  /\ Config.legacy_format_adapter true legacy_example
     = ([Config.legacy_warning],
        Config.migrate_legacy_to_current_config legacy_example)
  /\ Config.migrate_legacy_to_current_config legacy_example
     = Returned migrated_example
  /\ Config.construct_with true legacy_example
     = ([Config.legacy_warning],
        outcome_of (Config.validate_fields migrated_example)).
Proof.
  split; [|split; [|split]].
  - apply (proj1 (proj2 (C7_legacy_toggle legacy_example))).
    + simpl. tauto.
    + simpl. intuition discriminate.
    + reflexivity.
  - apply (proj1 (proj2 (proj2 (C7_legacy_toggle legacy_example)))).
    simpl. tauto.
  - apply (proj2 (proj2 (proj2 (C7_legacy_toggle legacy_example)))
             [("spec", JList [JDict [("spec_path", JStr "a")]])] eq_refl).
  - apply (proj2 (proj2 (proj2 (C7_legacy_toggle legacy_example)))
             [("spec", JList [JDict [("spec_path", JStr "a")]])] eq_refl).
    reflexivity.
Defined.

(** ** Unknown keys in the tree *)

Lemma errs_of_fmap {A B : Type} (f : A -> B) (r : result A) :
  errs_of (fmap f r) = errs_of r.
Proof. now destruct r. Qed.

Lemma in_errs_bind {A B : Type} (r : result A) (f : A -> result B) (e : error) :
  In e (errs_of r) -> In e (errs_of (r >>= f)).
Proof. destruct r; simpl; [contradiction | auto]. Qed.

Lemma in_list_items {A : Type} (V : json -> result A) (l : list json) :
  forall (start : Z) (i : nat) (x : json) (e : error),
    nth_error l i = Some x ->
    In e (errs_of (V x)) ->
    In (under (LIdx (start + Z.of_nat i)) e) (errs_of (list_items V start l)).
Proof.
  induction l as [|y l IH]; intros start i x e Hnth He.
  - destruct i; discriminate.
  - cbn [list_items]. rewrite !errs_of_ap, !in_app_iff.
    destruct i as [|i]; simpl in Hnth.
    + injection Hnth as ->. left. right.
      rewrite Z.add_0_r. now apply in_at_loc.
    + right. replace (start + Z.of_nat (S i))%Z with (start + 1 + Z.of_nat i)%Z
        by lia.
      now apply IH with (x := x).
Qed.

Section WrapperEntries.
Variables (T : Type) (parse_test : dict -> result T).

(** Errors of an entry of [tests] surface in the wrapper. *)
Lemma wrapper_entry_errors (w : dict) (tests : list json) (i : nat)
  (entry : dict) (e : error) :
  PyDict.get "tests" w = Some (JList tests) ->
  nth_error tests i = Some (JDict entry) ->
  unreserved entry = true ->
  In e (errs_of (parse_test entry)) ->
  In (under (LKey "tests") (under (LIdx (Z.of_nat i)) e))
     (errs_of (GenericTestConfig.parse parse_test w)).
Proof.
  intros Ht Hnth Hu He. unfold GenericTestConfig.parse. cbv zeta.
  rewrite !errs_of_ap, !in_app_iff. right.
  unfold always. rewrite Ht. apply in_at_loc, in_errs_bind.
  cbn [allow_none list_validate]. rewrite errs_of_fmap.
  apply (@in_list_items _ (not_none (model_validate parse_test)) _ 0%Z i
           _ e Hnth).
  cbn [not_none model_validate]. now rewrite call_model_unreserved.
Qed.

(** Errors of a wrapper surface in [AcceptanceTestConfigurations], below
    the name of the category. *)
Lemma category_errors (at_ : dict) (name : string) (w : dict) (e : error) :
  PyDict.get name at_ = Some (JDict w) ->
  unreserved w = true ->
  In e (errs_of (GenericTestConfig.parse parse_test w)) ->
  In (under (LKey name) e)
     (errs_of (AcceptanceTestConfigurations.category at_ name parse_test)).
Proof.
  intros Hget Hu He. unfold AcceptanceTestConfigurations.category, defaulted.
  rewrite Hget. apply in_at_loc. cbn [allow_none model_validate].
  now rewrite errs_of_fmap, call_model_unreserved.
Qed.
End WrapperEntries.

Lemma acceptance_tests_category_errors (at_ : dict) (e : error) :
  In e (errs_of (AcceptanceTestConfigurations.category at_ "spec"
                   SpecTestConfig.parse))
  \/ In e (errs_of (AcceptanceTestConfigurations.category at_ "connection"
                      ConnectionTestConfig.parse))
  \/ In e (errs_of (AcceptanceTestConfigurations.category at_ "discovery"
                      DiscoveryTestConfig.parse))
  \/ In e (errs_of (AcceptanceTestConfigurations.category at_ "basic_read"
                      BasicReadTestConfig.parse))
  \/ In e (errs_of (AcceptanceTestConfigurations.category at_ "full_refresh"
                      FullRefreshConfig.parse))
  \/ In e (errs_of (AcceptanceTestConfigurations.category at_ "incremental"
                      IncrementalConfig.parse)) ->
  In e (errs_of (AcceptanceTestConfigurations.parse at_)).
Proof.
  intros H. unfold AcceptanceTestConfigurations.parse.
  apply forbid_extra_keeps. rewrite !errs_of_ap, !in_app_iff. tauto.
Qed.

(** An error of an entry of a category's [tests], seen from the
    [acceptance_tests] mapping. *)
Lemma category_entry_errors (at_ : dict) (category : string) (w : dict)
  (tests : list json) (i : nat) (entry : dict) (e : error) :
  In category AcceptanceTestConfigurations.fields ->
  PyDict.get category at_ = Some (JDict w) ->
  PyDict.get "tests" w = Some (JList tests) ->
  nth_error tests i = Some (JDict entry) ->
  unreserved w = true ->
  unreserved entry = true ->
  In e (entry_errors category entry) ->
  In (under (LKey category) (under (LKey "tests") (under (LIdx (Z.of_nat i)) e)))
     (errs_of (AcceptanceTestConfigurations.parse at_)).
Proof.
  intros Hcat Hw Ht Hnth Huw Hue He.
  apply acceptance_tests_category_errors.
  destruct Hcat as [<- | [<- | [<- | [<- | [<- | [<- | []]]]]]].
  - left.
    apply (@category_errors _ SpecTestConfig.parse _ _ _ _ Hw Huw).
    exact (@wrapper_entry_errors _ SpecTestConfig.parse _ _ _ _ _ Ht Hnth Hue He).
  - right. left.
    apply (@category_errors _ ConnectionTestConfig.parse _ _ _ _ Hw Huw).
    exact (@wrapper_entry_errors _ ConnectionTestConfig.parse _ _ _ _ _
             Ht Hnth Hue He).
  - right. right. left.
    apply (@category_errors _ DiscoveryTestConfig.parse _ _ _ _ Hw Huw).
    exact (@wrapper_entry_errors _ DiscoveryTestConfig.parse _ _ _ _ _
             Ht Hnth Hue He).
  - right. right. right. left.
    apply (@category_errors _ BasicReadTestConfig.parse _ _ _ _ Hw Huw).
    exact (@wrapper_entry_errors _ BasicReadTestConfig.parse _ _ _ _ _
             Ht Hnth Hue He).
  - right. right. right. right. left.
    apply (@category_errors _ FullRefreshConfig.parse _ _ _ _ Hw Huw).
    exact (@wrapper_entry_errors _ FullRefreshConfig.parse _ _ _ _ _
             Ht Hnth Hue He).
  - right. right. right. right. right.
    apply (@category_errors _ IncrementalConfig.parse _ _ _ _ Hw Huw).
    exact (@wrapper_entry_errors _ IncrementalConfig.parse _ _ _ _ _
             Ht Hnth Hue He).
Qed.



Lemma config_acceptance_tests_errors (values at_ : dict) (e : error) :
  PyDict.get "acceptance_tests" values = Some (JDict at_) ->
  unreserved at_ = true ->
  In e (errs_of (AcceptanceTestConfigurations.parse at_)) ->
  In (under (LKey "acceptance_tests") e)
     (errs_of (Config.validate_fields values)).
Proof.
  intros Hget Hu He. unfold Config.validate_fields.
  apply forbid_extra_keeps. rewrite !errs_of_ap, !in_app_iff.
  left. left. right. unfold required. rewrite Hget. apply in_at_loc.
  cbn [not_none model_validate]. now rewrite call_model_unreserved.
Qed.

Lemma construct_with_invalid (allow : bool) (d values : dict)
  (log : list string) (e : error) :
  unreserved d = true ->
  Config.legacy_format_adapter allow d = (log, Returned values) ->
  In e (errs_of (Config.validate_fields values)) ->
  exists log' errors,
    Config.construct_with allow d = (log', Invalid errors) /\ In e errors.
Proof.
  intros Hu Ha He. unfold Config.construct_with. rewrite Hu, Ha.
  destruct (in_errs_of _ _ He) as [es [Hes Hin]]. rewrite Hes. eauto.
Qed.




(** ** Further properties of the code *)

(** The migration reads the legacy value through its mapping interface:
    when "tests" holds anything but a mapping, construction (of a document
    without the reserved keyword) under the enabled toggle ends in an
    [AttributeError], not in a validation error. *)
Theorem migration_needs_a_mapping (d : dict) (t : json) :
  unreserved d = true ->
  PyDict.get "tests" d = Some t ->
  (forall items, t <> JDict items) ->
  Config.construct_with true d
  = ([Config.legacy_warning], Crashed (AttributeError "items")).
Proof.
  intros Hu Ht Hnot.
  unfold Config.construct_with, Config.legacy_format_adapter,
    Config.is_legacy, PyDict.contains,
    Config.migrate_legacy_to_current_config.
  rewrite Hu, Ht. simpl.
  destruct t as [| | | | |items]; try reflexivity. now elim (Hnot items).
Qed.

Lemma migration_needs_a_mapping_witness :
  Config.construct_with true [("connector_image", JStr "x"); ("tests", JList [])]
  = ([Config.legacy_warning], Crashed (AttributeError "items")).
Proof.
  apply (@migration_needs_a_mapping _ (JList []));
    [reflexivity | reflexivity | discriminate].
Defined.

(** The mutual-exclusion check of the wrapper tests the truth value of the
    bypass reason: an empty string (like null) next to a non-empty list of
    valid tests is accepted (in a mapping without the reserved keyword). *)
Theorem empty_bypass_reason_with_tests
  (T : Type) (parse_test : dict -> result T) (d : dict) (items : list json)
  (tests : list T) :
  unreserved d = true ->
  PyDict.get "bypass_reason" d = Some (JStr "") ->
  PyDict.get "tests" d = Some (JList items) ->
  list_items (not_none (model_validate parse_test)) 0 items = Ok tests ->
  construct (GenericTestConfig.parse parse_test) d
  = Valid (GenericTestConfig.make (Some "") (Some tests)).
Proof.
  intros Hu Hb Ht Hl. rewrite construct_unreserved by exact Hu.
  unfold outcome_of, GenericTestConfig.parse.
  unfold defaulted, always. rewrite Hb, Ht.
  change (allow_none (list_validate (not_none (model_validate parse_test)))
            (JList items))
    with (fmap Some (list_items (not_none (model_validate parse_test)) 0 items)).
  rewrite Hl. simpl.
  unfold GenericTestConfig.no_bypass_reason_when_tests_is_set. simpl.
  now rewrite andb_false_r.
Qed.

Lemma empty_bypass_reason_with_tests_witness :
  construct (GenericTestConfig.parse SpecTestConfig.parse)
    [("bypass_reason", JStr ""); ("tests", JList [JDict []])]
  = Valid
      (GenericTestConfig.make (Some "")
         (Some
            [SpecTestConfig.make "secrets/spec.json" "secrets/config.json" None
               BackwardCompatibilityTestsConfig.default])).
Proof.
  apply (@empty_bypass_reason_with_tests _ SpecTestConfig.parse _ [JDict []]);
    reflexivity.
Defined.

(** The pattern of the version fields is matched at the start of the string
    only: a supplied string is accepted exactly when it begins with a
    decimal digit, whatever follows ("1.2.3.4" and "01" are accepted although
    the pattern does not match them in full). *)
Theorem semver_accepts_any_digit_prefix (s : string) :
  (BackwardCompatibilityTestsConfig.semver (JStr s) = Ok s
   <-> starts_with_digit s = true)
  /\ BackwardCompatibilityTestsConfig.semver (JStr "1.2.3.4") = Ok "1.2.3.4"
  /\ re_fullmatch SEMVER_REGEX "1.2.3.4" = false
  /\ BackwardCompatibilityTestsConfig.semver (JStr "01") = Ok "01"
  /\ re_fullmatch SEMVER_REGEX "01" = false.
Proof.
  split; [|repeat split; reflexivity]. split.
  - unfold BackwardCompatibilityTestsConfig.semver. simpl. unfold constr_regex.
    rewrite re_match_semver. destruct (starts_with_digit s); [auto|discriminate].
  - apply semver_accepts.
Qed.



Section UnknownWrapperKey.
Variables (k : string) (v : json).
Hypotheses (Hb : k <> "bypass_reason") (Ht : k <> "tests")
  (Hr : k <> reserved_key).


Variables (at_ w : dict) (category : string).
Hypothesis Hw : PyDict.get category at_ = Some (JDict w).


End UnknownWrapperKey.



(** ** Constructed models *)

Lemma ap_ok {A B : Type} (rf : result (A -> B)) (ra : result A) (b : B) :
  rf <*> ra = Ok b -> exists f a, rf = Ok f /\ ra = Ok a /\ b = f a.
Proof.
  destruct rf as [f|], ra as [a|]; simpl; try discriminate.
  intros [= <-]. eauto.
Qed.

Lemma bind_ok {A B : Type} (r : result A) (f : A -> result B) (b : B) :
  r >>= f = Ok b -> exists a, r = Ok a /\ f a = Ok b.
Proof. destruct r as [a|]; simpl; [eauto | discriminate]. Qed.

Lemma at_loc_ok {A : Type} (i : loc_item) (r : result A) (a : A) :
  at_loc i r = Ok a -> r = Ok a.
Proof. destruct r; simpl; [auto | discriminate]. Qed.

Lemma fmap_ok {A B : Type} (f : A -> B) (r : result A) (b : B) :
  fmap f r = Ok b -> exists a, r = Ok a /\ b = f a.
Proof. destruct r as [a|]; simpl; [intros [= <-]; eauto | discriminate]. Qed.

Lemma insert_sorted_not_nil (k : string) (l : list string) :
  insert_sorted k l <> [].
Proof. destruct l as [|k' l]; simpl; [|destruct (String.leb k k')]; discriminate. Qed.

Lemma sorted_nil (l : list string) : sorted l = [] -> l = [].
Proof.
  destruct l as [|k l]; simpl; auto.
  intros H. now apply insert_sorted_not_nil in H.
Qed.

(** A model with [extra = "forbid"] is only built from a mapping all of
    whose keys are declared. *)
Lemma forbid_extra_ok {A : Type} (d : dict) (fields : list string)
  (r : result A) (a : A) :
  forbid_extra d fields r = Ok a -> r = Ok a /\ extra d fields = [].
Proof.
  unfold forbid_extra.
  destruct (sorted (extra d fields)) eqn:E; [|discriminate].
  intros H. split; [exact H | now apply sorted_nil].
Qed.

(** Splits [Ok make <*> r1 <*> ... <*> rn = Ok c] into the results of the
    fields. *)
Ltac fields_ok H :=
  lazymatch type of H with
  | (_ <*> _) = Ok _ =>
      let f := fresh "f" in
      let a := fresh "a" in
      let Hf := fresh "Hf" in
      let Ha := fresh "Ha" in
      let E := fresh "E" in
      apply ap_ok in H; destruct H as (f & a & Hf & Ha & E); fields_ok Hf
  | Ok _ = Ok _ => injection H as <-
  end.

(** Every [ExpectedRecordsConfig] that is constructed satisfies both
    cross-field rules, whatever raw values the flags were given as: with
    extra_fields on, exact_order is on and extra_records is off. *)
Theorem expected_records_invariant (d : dict) (c : ExpectedRecordsConfig.t) :
  ExpectedRecordsConfig.parse d = Ok c ->
  ExpectedRecordsConfig.extra_fields c = true ->
  ExpectedRecordsConfig.exact_order c = true
  /\ ExpectedRecordsConfig.extra_records c = false.
Proof.
  intros H Hef. unfold ExpectedRecordsConfig.parse in H. cbv zeta in H.
  apply forbid_extra_ok in H. destruct H as [H _].
  fields_ok H. subst. simpl in Hef. subst a1. simpl.
  rewrite Ha0 in Ha. rewrite Ha2, Ha1 in Ha0, Ha.
  unfold always in Ha0, Ha.
  apply at_loc_ok, bind_ok in Ha0. destruct Ha0 as (b0 & _ & Hb0).
  apply at_loc_ok, bind_ok in Ha. destruct Ha as (b & _ & Hb).
  unfold ExpectedRecordsConfig.validate_exact_order in Hb0.
  unfold ExpectedRecordsConfig.validate_extra_records in Hb.
  simpl in Hb0, Hb.
  destruct b0; simpl in Hb0; [|discriminate].
  destruct b; simpl in Hb; [discriminate|].
  injection Hb0 as <-. injection Hb as <-. auto.
Qed.

Lemma expected_records_invariant_witness :
  ExpectedRecordsConfig.parse
    [("path", JStr "p"); ("extra_fields", JStr "yes");
     ("exact_order", JInt 1); ("extra_records", JStr "off")]
  = Ok (ExpectedRecordsConfig.make "p" true true false)
  /\ ExpectedRecordsConfig.exact_order
       (ExpectedRecordsConfig.make "p" true true false) = true
  /\ ExpectedRecordsConfig.extra_records
       (ExpectedRecordsConfig.make "p" true true false) = false.
Proof.
  split; [reflexivity|].
  apply (@expected_records_invariant
           [("path", JStr "p"); ("extra_fields", JStr "yes");
            ("exact_order", JInt 1); ("extra_records", JStr "off")]);
    reflexivity.
Defined.

(** Every category wrapper that is constructed has no bypass reason (or an
    empty one) or has no test: a non-empty reason never sits next to a
    non-empty list. *)
Theorem wrapper_invariant
  (T : Type) (parse_test : dict -> result T) (d : dict)
  (w : GenericTestConfig.t T) :
  GenericTestConfig.parse parse_test d = Ok w ->
  (GenericTestConfig.bypass_reason w = None
   \/ GenericTestConfig.bypass_reason w = Some "")
  \/ (GenericTestConfig.tests w = None
      \/ GenericTestConfig.tests w = Some []).
Proof.
  intros H. unfold GenericTestConfig.parse in H. cbv zeta in H.
  fields_ok H. subst. simpl.
  rewrite Ha0 in Ha. unfold always in Ha.
  apply at_loc_ok, bind_ok in Ha. destruct Ha as (tests & _ & Hv).
  unfold GenericTestConfig.no_bypass_reason_when_tests_is_set in Hv.
  destruct tests as [[|t ts]|]; simpl in Hv.
  - injection Hv as <-. auto.
  - destruct a0 as [reason|]; simpl in Hv; [|auto].
    destruct (String.eqb_spec reason ""); [subst; auto | discriminate].
  - injection Hv as <-. auto.
Qed.

Lemma wrapper_invariant_witness :
  let w := GenericTestConfig.make (Some "")
             (Some [ConnectionTestConfig.make "secrets/config.json"
                      ConnectionTestConfig.Succeed None]) in
  GenericTestConfig.parse ConnectionTestConfig.parse
    [("bypass_reason", JStr ""); ("tests", JList [JDict []])]
  = Ok w
  /\ ((GenericTestConfig.bypass_reason w = None
       \/ GenericTestConfig.bypass_reason w = Some "")
      \/ (GenericTestConfig.tests w = None
          \/ GenericTestConfig.tests w = Some [])).
Proof.
  intro w. split; [reflexivity|].
  apply (@wrapper_invariant _ ConnectionTestConfig.parse
           [("bypass_reason", JStr ""); ("tests", JList [JDict []])] w).
  reflexivity.
Defined.

(** ** Bounds on timeouts and thresholds *)

Lemma ge_zero_ok (v : json) (n : Z) :
  int_validator v >>= number_ge 0 = Ok n -> (0 <= n)%Z.
Proof.
  intros H. apply bind_ok in H. destruct H as (m & _ & Hm).
  unfold number_ge in Hm. destruct (Z.leb_spec 0 m); [|discriminate].
  injection Hm as <-. assumption.
Qed.

Lemma timeout_field_non_negative (d : dict) (n : Z) :
  Field.timeout_seconds d = Ok (Some n) -> (0 <= n)%Z.
Proof.
  unfold Field.timeout_seconds, defaulted.
  destruct (PyDict.get "timeout_seconds" d) as [v|]; [|discriminate].
  intros H. apply at_loc_ok in H.
  destruct v; unfold allow_none in H; cbv beta iota in H; try discriminate;
    apply fmap_ok in H; destruct H as (m & Hm & [= ->]);
    now apply ge_zero_ok in Hm.
Qed.

(** Every category configuration that is constructed has no timeout or a
    non-negative one, whatever raw value it was given as, and an incremental
    configuration has a non-negative threshold. *)
Theorem timeouts_are_non_negative (d : dict) (n : Z) :
  (forall c, SpecTestConfig.parse d = Ok c ->
             SpecTestConfig.timeout_seconds c = Some n -> (0 <= n)%Z)
  /\ (forall c, ConnectionTestConfig.parse d = Ok c ->
                ConnectionTestConfig.timeout_seconds c = Some n -> (0 <= n)%Z)
  /\ (forall c, DiscoveryTestConfig.parse d = Ok c ->
                DiscoveryTestConfig.timeout_seconds c = Some n -> (0 <= n)%Z)
  /\ (forall c, BasicReadTestConfig.parse d = Ok c ->
                BasicReadTestConfig.timeout_seconds c = Some n -> (0 <= n)%Z)
  /\ (forall c, FullRefreshConfig.parse d = Ok c ->
                FullRefreshConfig.timeout_seconds c = Some n -> (0 <= n)%Z)
  /\ (forall c, IncrementalConfig.parse d = Ok c ->
                (IncrementalConfig.timeout_seconds c = Some n -> (0 <= n)%Z)
                /\ (0 <= IncrementalConfig.threshold_days c)%Z).
Proof.
  split; [|split; [|split; [|split; [|split]]]]; intros c H;
    [ unfold SpecTestConfig.parse in H
    | unfold ConnectionTestConfig.parse in H
    | unfold DiscoveryTestConfig.parse in H
    | unfold BasicReadTestConfig.parse in H
    | unfold FullRefreshConfig.parse in H
    | unfold IncrementalConfig.parse in H ];
    apply forbid_extra_ok in H; destruct H as [H _]; fields_ok H; subst;
    simpl; try split;
    try (intros Ht; subst; eapply timeout_field_non_negative; eassumption).
  unfold defaulted in Ha0.
  destruct (PyDict.get "threshold_days" d) as [v|];
    [|injection Ha0 as <-; reflexivity].
  apply at_loc_ok in Ha0.
  destruct v; unfold not_none, raise in Ha0; cbv beta iota in Ha0;
    try discriminate; now apply ge_zero_ok in Ha0.
Qed.

Lemma timeouts_are_non_negative_witness :
  SpecTestConfig.parse [("timeout_seconds", JStr " 30 ")]
  = Ok (SpecTestConfig.make "secrets/spec.json" "secrets/config.json"
          (Some 30%Z) BackwardCompatibilityTestsConfig.default)
  /\ (0 <= 30)%Z.
Proof.
  split; [reflexivity|].
  apply (proj1 (timeouts_are_non_negative
                  [("timeout_seconds", JStr " 30 ")] 30)
           (SpecTestConfig.make "secrets/spec.json" "secrets/config.json"
              (Some 30%Z) BackwardCompatibilityTestsConfig.default));
    reflexivity.
Defined.

Lemma negative_timeout_error (entry : dict) (n : Z) :
  PyDict.get "timeout_seconds" entry = Some (JInt n) ->
  (n < 0)%Z ->
  In (mkError [LKey "timeout_seconds"] NumberNotGeError)
     (errs_of (Field.timeout_seconds entry)).
Proof.
  intros Hget Hn. unfold Field.timeout_seconds, defaulted. rewrite Hget.
  simpl. unfold number_ge. destruct (Z.leb_spec 0 n); [lia|]. now left.
Qed.

Lemma entry_timeout_error (category : string) (entry : dict) (n : Z) :
  In category AcceptanceTestConfigurations.fields ->
  PyDict.get "timeout_seconds" entry = Some (JInt n) ->
  (n < 0)%Z ->
  In (mkError [LKey "timeout_seconds"] NumberNotGeError)
     (entry_errors category entry).
Proof.
  intros Hcat Hget Hn. pose proof (negative_timeout_error _ Hget Hn) as He.
  destruct Hcat as [<- | [<- | [<- | [<- | [<- | [<- | []]]]]]];
    unfold entry_errors; cbn [String.eqb Ascii.eqb Bool.eqb];
    [ unfold SpecTestConfig.parse
    | unfold ConnectionTestConfig.parse
    | unfold DiscoveryTestConfig.parse
    | unfold BasicReadTestConfig.parse
    | unfold FullRefreshConfig.parse
    | unfold IncrementalConfig.parse ];
    apply forbid_extra_keeps; rewrite !errs_of_ap, !in_app_iff; tauto.
Qed.

(** A negative integer given as [timeout_seconds] in an entry of any
    category's [tests] list makes construction of the root configuration
    fail, with a lower-bound error located at that entry's
    [timeout_seconds] (no mapping along the path holding the reserved
    keyword). *)
Theorem negative_timeout_rejected (allow : bool) (d values : dict)
  (log : list string) (at_ : dict) (category : string) (w : dict)
  (tests : list json) (i : nat) (entry : dict) (n : Z) :
  unreserved d = true ->
  Config.legacy_format_adapter allow d = (log, Returned values) ->
  PyDict.get "acceptance_tests" values = Some (JDict at_) ->
  In category AcceptanceTestConfigurations.fields ->
  PyDict.get category at_ = Some (JDict w) ->
  PyDict.get "tests" w = Some (JList tests) ->
  nth_error tests i = Some (JDict entry) ->
  unreserved at_ = true ->
  unreserved w = true ->
  unreserved entry = true ->
  PyDict.get "timeout_seconds" entry = Some (JInt n) ->
  (n < 0)%Z ->
  rejects_with allow d
    [LKey "acceptance_tests"; LKey category; LKey "tests"; LIdx (Z.of_nat i);
     LKey "timeout_seconds"]
    NumberNotGeError.
Proof.
  intros Hu Ha Hat Hcat Hw Ht Hnth Hua Huw Hue Hget Hn. unfold rejects_with.
  eapply construct_with_invalid; [exact Hu|exact Ha|].
  change (mkError [LKey "acceptance_tests"; LKey category; LKey "tests";
                   LIdx (Z.of_nat i); LKey "timeout_seconds"] NumberNotGeError)
    with (under (LKey "acceptance_tests")
            (under (LKey category)
               (under (LKey "tests")
                  (under (LIdx (Z.of_nat i))
                     (mkError [LKey "timeout_seconds"] NumberNotGeError))))).
  eapply config_acceptance_tests_errors; [exact Hat|exact Hua|].
  eapply category_entry_errors; eauto using entry_timeout_error.
Qed.

Lemma negative_timeout_rejected_witness :
  rejects_with true
    [("connector_image", JStr "x");
     ("tests", JDict [("discovery", JList [JDict [("timeout_seconds", JInt (-1))]])])]
    [LKey "acceptance_tests"; LKey "discovery"; LKey "tests"; LIdx 0;
     LKey "timeout_seconds"]
    NumberNotGeError.
Proof.
  eapply (@negative_timeout_rejected true
            [("connector_image", JStr "x");
             ("tests",
              JDict [("discovery", JList [JDict [("timeout_seconds", JInt (-1))]])])]
            [("connector_image", JStr "x");
             ("acceptance_tests",
              JDict
                [("discovery",
                  JDict
                    [("tests", JList [JDict [("timeout_seconds", JInt (-1))]])])])]
            [Config.legacy_warning] _ "discovery" _ _ 0%nat _ (-1)%Z eq_refl
            eq_refl).
  - reflexivity.
  - simpl. tauto.
  - reflexivity.
  - reflexivity.
  - reflexivity.
  - reflexivity.
  - reflexivity.
  - reflexivity.
  - reflexivity.
  - reflexivity.
Defined.

(** ** Enumerations *)

Lemma status_validator_ok (v : json) (s : ConnectionTestConfig.Status) :
  ConnectionTestConfig.status_validator v = Ok s <-> v = JStr (status_value s).
Proof.
  split.
  - destruct v as [| | |x| |]; simpl; try discriminate.
    destruct (String.eqb_spec x "succeed") as [-> |];
      [intros [= <-]; reflexivity|].
    destruct (String.eqb_spec x "failed") as [-> |];
      [intros [= <-]; reflexivity|].
    destruct (String.eqb_spec x "exception") as [-> |];
      [intros [= <-]; reflexivity | discriminate].
  - intros ->. now destruct s.
Qed.

Lemma strictness_validator_ok (v : json) (l : Config.TestStrictnessLevel) :
  Config.strictness_validator v = Ok l <-> v = JStr (strictness_value l).
Proof.
  split.
  - destruct v as [| | |x| |]; simpl; try discriminate.
    destruct (String.eqb_spec x "high") as [-> |];
      [intros [= <-]; reflexivity|].
    destruct (String.eqb_spec x "low") as [-> |];
      [intros [= <-]; reflexivity | discriminate].
  - intros ->. now destruct l.
Qed.

(** The two enumeration fields, seen from their models.  A connection test
    built from a mapping that gives [status] was given one of the three
    strings of the enumeration and holds the member of that string, and each
    of the three strings is accepted; null is not.  A root configuration
    built from a document that gives [test_strictness_level] was given null
    and holds no level, or was given one of the two strings and holds its
    member; null and both strings are accepted. *)
Theorem enumeration_fields (v : json) :
  (forall d c,
      PyDict.get "status" d = Some v ->
      ConnectionTestConfig.parse d = Ok c ->
      v = JStr (status_value (ConnectionTestConfig.status c)))
  /\ (forall s,
        v = JStr (status_value s) ->
        ConnectionTestConfig.parse [("status", v)]
        = Ok (ConnectionTestConfig.make "secrets/config.json" s None))
  /\ (v = JNull ->
      ConnectionTestConfig.parse [("status", v)]
      = Err [mkError [LKey "status"] NoneIsNotAllowedError])
  /\ (forall d c,
        PyDict.get "test_strictness_level" d = Some v ->
        Config.validate_fields d = Ok c ->
        match Config.test_strictness_level c with
        | None => v = JNull
        | Some l => v = JStr (strictness_value l)
        end)
  /\ (forall level,
        match level with
        | None => v = JNull
        | Some l => v = JStr (strictness_value l)
        end ->
        exists c,
          Config.validate_fields
            [("connector_image", JStr "x"); ("acceptance_tests", JDict []);
             ("test_strictness_level", v)] = Ok c
          /\ Config.test_strictness_level c = level).
Proof.
  split; [|split; [|split; [|split]]].
  - intros d c Hget H. unfold ConnectionTestConfig.parse in H.
    apply forbid_extra_ok in H. destruct H as [H _]. fields_ok H. subst.
    simpl.
    match goal with
    | Hs : defaulted d "status" _ _ = Ok ?a |- _ =>
        unfold defaulted in Hs; rewrite Hget in Hs; apply at_loc_ok in Hs;
        destruct v; unfold not_none, raise in Hs; cbv beta iota in Hs;
        try discriminate; now apply status_validator_ok in Hs
    end.
  - intros s ->. now destruct s.
  - intros ->. reflexivity.
  - intros d c Hget H. unfold Config.validate_fields in H.
    apply forbid_extra_ok in H. destruct H as [H _]. fields_ok H. subst.
    simpl.
    match goal with
    | Hs : defaulted d "test_strictness_level" _ _ = Ok ?a |- _ =>
        unfold defaulted in Hs; rewrite Hget in Hs; apply at_loc_ok in Hs;
        destruct v; unfold allow_none in Hs; cbv beta iota in Hs;
        try (injection Hs as <-; reflexivity);
        apply fmap_ok in Hs; destruct Hs as (l & Hl & ->);
        now apply strictness_validator_ok in Hl
    end.
  - intros [l|] ->; [destruct l|]; eexists; split; reflexivity.
Qed.

(** ** The adapter and the documents it produces *)

Lemma migrate_returns_inv (d migrated : dict) :
  Config.migrate_legacy_to_current_config d = Returned migrated ->
  exists items,
    PyDict.get "tests" d = Some (JDict items)
    /\ migrated
       = PyDict.set "acceptance_tests" (JDict (acceptance_tests_of items))
           (PyDict.remove "tests" d).
Proof.
  intros H.
  destruct (PyDict.get "tests" d) as [t|] eqn:Ht;
    [|unfold Config.migrate_legacy_to_current_config in H; rewrite Ht in H;
      discriminate].
  destruct t as [| | | | |items];
    try (unfold Config.migrate_legacy_to_current_config in H; rewrite Ht in H;
         discriminate).
  exists items. split; [reflexivity|].
  rewrite (migrate_legacy_returns _ Ht) in H. now injection H as <-.
Qed.

Lemma adapter_returns_inv (allow : bool) (d values : dict) (log : list string) :
  Config.legacy_format_adapter allow d = (log, Returned values) ->
  (log = [] /\ values = d /\ (allow = false \/ Config.is_legacy d = false))
  \/ (log = [Config.legacy_warning] /\ allow = true
      /\ exists items,
           PyDict.get "tests" d = Some (JDict items)
           /\ values
              = PyDict.set "acceptance_tests"
                  (JDict (acceptance_tests_of items))
                  (PyDict.remove "tests" d)).
Proof.
  unfold Config.legacy_format_adapter.
  destruct allow; simpl.
  - destruct (Config.is_legacy d) eqn:Hl.
    + intros [= <- Hm]. right. repeat split; auto.
      now apply migrate_returns_inv.
    + intros [= <- <-]. left. auto.
  - intros [= <- <-]. left. auto.
Qed.

(** What the adapter hands to field validation is never legacy-shaped:
    running the adapter on its own output changes nothing and logs nothing,
    and a legacy document constructs to the same outcome as the document it
    migrates to. *)
Theorem adapter_output_is_current (allow : bool) (d values : dict)
  (log : list string) :
  Config.legacy_format_adapter allow d = (log, Returned values) ->
  (allow = true -> Config.is_legacy values = false)
  /\ Config.legacy_format_adapter allow values = ([], Returned values)
  /\ snd (Config.construct_with allow values)
     = snd (Config.construct_with allow d).
Proof.
  intros Ha.
  assert (Hl : allow = true -> Config.is_legacy values = false).
  { intros ->. destruct (adapter_returns_inv _ _ Ha)
      as [(_ & -> & [Hf | Hl]) | (_ & _ & items & Ht & ->)];
      [discriminate | exact Hl |].
    unfold Config.is_legacy, PyDict.contains.
    rewrite get_set_ne by discriminate. now rewrite get_remove_eq. }
  assert (Hid : Config.legacy_format_adapter allow values
                = ([], Returned values)).
  { unfold Config.legacy_format_adapter. destruct allow; [|reflexivity].
    now rewrite Hl. }
  assert (Hu : unreserved values = unreserved d).
  { destruct (adapter_returns_inv _ _ Ha)
      as [(_ & -> & _) | (_ & _ & items & Ht & ->)]; [reflexivity|].
    unfold unreserved, PyDict.contains.
    rewrite get_set_ne by discriminate.
    now rewrite get_remove_ne by discriminate. }
  split; [exact Hl|]. split; [exact Hid|].
  unfold Config.construct_with. rewrite Hu, Hid, Ha.
  now destruct (unreserved d).
Qed.

Lemma adapter_output_is_current_witness :
  Config.legacy_format_adapter true legacy_example
  = ([Config.legacy_warning], Returned migrated_example)
  /\ Config.legacy_format_adapter true migrated_example
     = ([], Returned migrated_example)
  /\ snd (Config.construct_with true migrated_example)
     = snd (Config.construct_with true legacy_example).
Proof.
  split; [reflexivity|].
  apply (@adapter_output_is_current true legacy_example migrated_example
           [Config.legacy_warning]).
  reflexivity.
Defined.

(** The migration on its own raises [KeyError] exactly on a document
    without a "tests" key (it pops the key unconditionally); the adapter
    guards it with the detection, so construction never ends in a
    [KeyError]. *)
Theorem migration_key_error (d : dict) :
  (Config.migrate_legacy_to_current_config d = Raised (KeyError "tests")
   <-> ~ In "tests" (PyDict.keys d))
  /\ (forall allow k,
        snd (Config.legacy_format_adapter allow d) <> Raised (KeyError k)).
Proof.
  split.
  - unfold Config.migrate_legacy_to_current_config. split.
    + intros H Hin. apply get_in_keys in Hin. destruct Hin as [t Ht].
      rewrite Ht in H. destruct t; discriminate.
    + intros Hnot. now rewrite (get_not_in_keys _ _ Hnot).
  - intros allow k. unfold Config.legacy_format_adapter, Config.is_legacy,
      PyDict.contains, Config.migrate_legacy_to_current_config.
    destruct allow; simpl; [|discriminate].
    destruct (PyDict.get "tests" d) as [t|]; simpl; [|discriminate].
    destruct t; discriminate.
Qed.

(** A wrapper as the migration builds it (the single key "tests") is
    validated by validating the list alone: it never has a bypass reason
    and the mutual-exclusion check never fires. *)
Lemma migrated_wrapper_parse
  (T : Type) (parse_test : dict -> result T) (v : json) :
  GenericTestConfig.parse parse_test [("tests", v)]
  = fmap (GenericTestConfig.make None)
      (at_loc (LKey "tests")
         (allow_none (list_validate (not_none (model_validate parse_test))) v)).
Proof.
  unfold GenericTestConfig.parse, defaulted, always.
  cbn [PyDict.get String.eqb Ascii.eqb Bool.eqb add_value json_of_option_str
       PyDict.set].
  destruct (allow_none (list_validate (not_none (model_validate parse_test))) v)
    as [tests|es]; [|reflexivity].
  cbn [bind]. unfold GenericTestConfig.no_bypass_reason_when_tests_is_set.
  cbn [PyDict.get String.eqb Ascii.eqb Bool.eqb truthy].
  now rewrite andb_false_r.
Qed.

(** ** Legacy documents through migration and validation *)

Lemma keys_set {V : Type} (k k' : string) (v : V) (d : list (string * V)) :
  In k (PyDict.keys (PyDict.set k' v d)) <-> k = k' \/ In k (PyDict.keys d).
Proof.
  induction d as [|[k0 v0] d IH]; simpl.
  - intuition.
  - destruct (String.eqb_spec k' k0); simpl.
    + subst. intuition.
    + rewrite IH. intuition.
Qed.

Lemma keys_migration_loop (items acc : dict) (k : string) :
  In k (PyDict.keys
          (fold_left
             (fun acc entry =>
                PyDict.set (fst entry) (JDict [("tests", snd entry)]) acc)
             items acc))
  <-> In k (PyDict.keys acc) \/ In k (PyDict.keys items).
Proof.
  revert acc. induction items as [|[name configs] items IH]; intros acc; simpl.
  - tauto.
  - rewrite IH, keys_set. simpl. intuition.
Qed.

Lemma keys_acceptance_tests_of (items : dict) (k : string) :
  In k (PyDict.keys (acceptance_tests_of items)) <-> In k (PyDict.keys items).
Proof.
  unfold acceptance_tests_of. rewrite keys_migration_loop. simpl. tauto.
Qed.

Lemma adapter_migrates (d items : dict) :
  PyDict.get "tests" d = Some (JDict items) ->
  Config.legacy_format_adapter true d
  = ([Config.legacy_warning],
     Returned
       (PyDict.set "acceptance_tests" (JDict (acceptance_tests_of items))
          (PyDict.remove "tests" d))).
Proof.
  intros Ht. unfold Config.legacy_format_adapter, Config.is_legacy,
    PyDict.contains.
  rewrite Ht. simpl. now rewrite (migrate_legacy_returns _ Ht).
Qed.

Lemma unreserved_acceptance_tests_of (items : dict) :
  unreserved items = true -> unreserved (acceptance_tests_of items) = true.
Proof.
  rewrite !unreserved_not_in_keys. now rewrite keys_acceptance_tests_of.
Qed.



Lemma get_map_wrap_tests (items : dict) (k : string) :
  PyDict.get k (map wrap_tests items)
  = option_map (fun configs => JDict [("tests", configs)]) (PyDict.get k items).
Proof.
  induction items as [|[k' v] items IH]; simpl; auto.
  destruct (String.eqb k k'); auto.
Qed.

(** An error of a wrapper that does not depend on the category type
    surfaces in [AcceptanceTestConfigurations] below the category name. *)
Lemma category_wrapper_error (at_ : dict) (category : string) (w : dict)
  (e : error) :
  In category AcceptanceTestConfigurations.fields ->
  PyDict.get category at_ = Some (JDict w) ->
  unreserved w = true ->
  (forall (T : Type) (parse_test : dict -> result T),
      In e (errs_of (GenericTestConfig.parse parse_test w))) ->
  In (under (LKey category) e)
     (errs_of (AcceptanceTestConfigurations.parse at_)).
Proof.
  intros Hcat Hw Hu He. apply acceptance_tests_category_errors.
  destruct Hcat as [<- | [<- | [<- | [<- | [<- | [<- | []]]]]]].
  - left. apply (@category_errors _ SpecTestConfig.parse _ _ _ _ Hw Hu), He.
  - right. left.
    apply (@category_errors _ ConnectionTestConfig.parse _ _ _ _ Hw Hu), He.
  - right. right. left.
    apply (@category_errors _ DiscoveryTestConfig.parse _ _ _ _ Hw Hu), He.
  - right. right. right. left.
    apply (@category_errors _ BasicReadTestConfig.parse _ _ _ _ Hw Hu), He.
  - right. right. right. right. left.
    apply (@category_errors _ FullRefreshConfig.parse _ _ _ _ Hw Hu), He.
  - right. right. right. right. right.
    apply (@category_errors _ IncrementalConfig.parse _ _ _ _ Hw Hu), He.
Qed.

(** In a legacy document a category must map to a list (or null): any
    other value passes the migration untouched and is then rejected by
    field validation with a list error located at the [tests] of that
    category.  (Neither the document nor its "tests" mapping holds the
    reserved keyword.) *)
Theorem legacy_category_must_be_a_list (d items : dict) (category : string)
  (v : json) :
  unreserved d = true ->
  PyDict.get "tests" d = Some (JDict items) ->
  unreserved items = true ->
  PyDict.wf items ->
  In category AcceptanceTestConfigurations.fields ->
  PyDict.get category items = Some v ->
  v <> JNull ->
  (forall l, v <> JList l) ->
  rejects_with true d
    [LKey "acceptance_tests"; LKey category; LKey "tests"] ListError.
Proof.
  intros Hu Ht Hui Hwf Hcat Hv Hnull Hlist. unfold rejects_with.
  eapply construct_with_invalid; [exact Hu|exact (adapter_migrates _ Ht)|].
  change (mkError [LKey "acceptance_tests"; LKey category; LKey "tests"]
            ListError)
    with (under (LKey "acceptance_tests")
            (under (LKey category) (mkError [LKey "tests"] ListError))).
  eapply config_acceptance_tests_errors;
    [apply get_set_eq|now apply unreserved_acceptance_tests_of|].
  eapply category_wrapper_error; [exact Hcat | | |].
  - rewrite (acceptance_tests_of_wf Hwf), get_map_wrap_tests, Hv. reflexivity.
  - reflexivity.
  - intros T parse_test. rewrite migrated_wrapper_parse, errs_of_fmap.
    destruct v as [| | | |l|]; try (now left).
    + congruence.
    + now elim (Hlist l).
Qed.

Lemma legacy_category_must_be_a_list_witness :
  rejects_with true
    [("connector_image", JStr "x");
     ("tests", JDict [("spec", JDict [("spec_path", JStr "a")])])]
    [LKey "acceptance_tests"; LKey "spec"; LKey "tests"] ListError.
Proof.
  apply (@legacy_category_must_be_a_list _
           [("spec", JDict [("spec_path", JStr "a")])] "spec"
           (JDict [("spec_path", JStr "a")])).
  - reflexivity.
  - reflexivity.
  - reflexivity.
  - repeat constructor. simpl. tauto.
  - simpl. tauto.
  - reflexivity.
  - discriminate.
  - discriminate.
Defined.

(** ** Required fields and defaults *)



(** Reads the default of an omitted field off the result of that field. *)
Ltac default_field Hget :=
  match goal with
  | Ha : _ = Ok ?a |- ?a = _ =>
      unfold Field.config_path, Field.spec_path, Field.configured_catalog_path,
        Field.timeout_seconds, AcceptanceTestConfigurations.category,
        defaulted, always in Ha;
      rewrite Hget in Ha; simpl in Ha; injection Ha as <-; reflexivity
  end.

Ltac model_fields H :=
  apply forbid_extra_ok in H; destruct H as [H _]; fields_ok H; subst; simpl.

(** In every category configuration that is constructed, each field the
    raw mapping leaves out has the default declared for it. *)
Theorem category_defaults (d : dict) :
  (forall c, SpecTestConfig.parse d = Ok c ->
     (PyDict.get "spec_path" d = None ->
      SpecTestConfig.spec_path c = "secrets/spec.json")
     /\ (PyDict.get "config_path" d = None ->
         SpecTestConfig.config_path c = "secrets/config.json")
     /\ (PyDict.get "timeout_seconds" d = None ->
         SpecTestConfig.timeout_seconds c = None)
     /\ (PyDict.get "backward_compatibility_tests_config" d = None ->
         SpecTestConfig.backward_compatibility_tests_config c
         = BackwardCompatibilityTestsConfig.make "latest" None))
  /\ (forall c, ConnectionTestConfig.parse d = Ok c ->
        (PyDict.get "config_path" d = None ->
         ConnectionTestConfig.config_path c = "secrets/config.json")
        /\ (PyDict.get "status" d = None ->
            ConnectionTestConfig.status c = ConnectionTestConfig.Succeed)
        /\ (PyDict.get "timeout_seconds" d = None ->
            ConnectionTestConfig.timeout_seconds c = None))
  /\ (forall c, DiscoveryTestConfig.parse d = Ok c ->
        (PyDict.get "config_path" d = None ->
         DiscoveryTestConfig.config_path c = "secrets/config.json")
        /\ (PyDict.get "timeout_seconds" d = None ->
            DiscoveryTestConfig.timeout_seconds c = None)
        /\ (PyDict.get "backward_compatibility_tests_config" d = None ->
            DiscoveryTestConfig.backward_compatibility_tests_config c
            = BackwardCompatibilityTestsConfig.make "latest" None))
  /\ (forall c, BasicReadTestConfig.parse d = Ok c ->
        (PyDict.get "config_path" d = None ->
         BasicReadTestConfig.config_path c = "secrets/config.json")
        /\ (PyDict.get "configured_catalog_path" d = None ->
            BasicReadTestConfig.configured_catalog_path c = None)
        /\ (PyDict.get "empty_streams" d = None ->
            BasicReadTestConfig.empty_streams c = [])
        /\ (PyDict.get "expect_records" d = None ->
            BasicReadTestConfig.expect_records c = None)
        /\ (PyDict.get "validate_schema" d = None ->
            BasicReadTestConfig.validate_schema c = true)
        /\ (PyDict.get "validate_data_points" d = None ->
            BasicReadTestConfig.validate_data_points c = false)
        /\ (PyDict.get "expect_trace_message_on_failure" d = None ->
            BasicReadTestConfig.expect_trace_message_on_failure c = true)
        /\ (PyDict.get "timeout_seconds" d = None ->
            BasicReadTestConfig.timeout_seconds c = None))
  /\ (forall c, FullRefreshConfig.parse d = Ok c ->
        (PyDict.get "config_path" d = None ->
         FullRefreshConfig.config_path c = "secrets/config.json")
        /\ (PyDict.get "configured_catalog_path" d = None ->
            FullRefreshConfig.configured_catalog_path c = None)
        /\ (PyDict.get "timeout_seconds" d = None ->
            FullRefreshConfig.timeout_seconds c = None)
        /\ (PyDict.get "ignored_fields" d = None ->
            FullRefreshConfig.ignored_fields c = None))
  /\ (forall c, IncrementalConfig.parse d = Ok c ->
        (PyDict.get "config_path" d = None ->
         IncrementalConfig.config_path c = "secrets/config.json")
        /\ (PyDict.get "configured_catalog_path" d = None ->
            IncrementalConfig.configured_catalog_path c = None)
        /\ (PyDict.get "cursor_paths" d = None ->
            IncrementalConfig.cursor_paths c = None)
        /\ (PyDict.get "future_state_path" d = None ->
            IncrementalConfig.future_state_path c = None)
        /\ (PyDict.get "timeout_seconds" d = None ->
            IncrementalConfig.timeout_seconds c = None)
        /\ (PyDict.get "threshold_days" d = None ->
            IncrementalConfig.threshold_days c = 0%Z)
        /\ (PyDict.get "skip_comprehensive_incremental_tests" d = None ->
            IncrementalConfig.skip_comprehensive_incremental_tests c
            = Some false)).
Proof.
  split; [|split; [|split; [|split; [|split]]]]; intros c H;
    [ unfold SpecTestConfig.parse in H
    | unfold ConnectionTestConfig.parse in H
    | unfold DiscoveryTestConfig.parse in H
    | unfold BasicReadTestConfig.parse in H
    | unfold FullRefreshConfig.parse in H
    | unfold IncrementalConfig.parse in H ];
    model_fields H; repeat split; intros Hget; default_field Hget.
Qed.

Lemma category_defaults_witness :
  IncrementalConfig.parse [("future_state_path", JStr "state.json")]
  = Ok (IncrementalConfig.make "secrets/config.json" None None
          (Some "state.json") None 0 (Some false))
  /\ IncrementalConfig.threshold_days
       (IncrementalConfig.make "secrets/config.json" None None
          (Some "state.json") None 0 (Some false)) = 0%Z.
Proof.
  split; [reflexivity|].
  apply (proj2 (proj2 (proj2 (proj2 (proj2
           (category_defaults [("future_state_path", JStr "state.json")])))))
           (IncrementalConfig.make "secrets/config.json" None None
              (Some "state.json") None 0 (Some false)) eq_refl).
  reflexivity.
Defined.

(** In the root configuration, the set of categories, a category wrapper
    and the two nested models, each field the raw mapping leaves out has its
    default: a category that is not named is not configured at all, a
    wrapper has neither reason nor tests, the strictness level is low; and a
    document with only an image and an empty [acceptance_tests] is
    constructed for every toggle position. *)
Theorem root_defaults (d : dict) :
  (forall c, Config.validate_fields d = Ok c ->
     (PyDict.get "base_path" d = None -> Config.base_path c = None)
     /\ (PyDict.get "test_strictness_level" d = None ->
         Config.test_strictness_level c = Some Config.low))
  /\ (forall c, AcceptanceTestConfigurations.parse d = Ok c ->
        (PyDict.get "spec" d = None ->
         AcceptanceTestConfigurations.spec c = None)
        /\ (PyDict.get "connection" d = None ->
            AcceptanceTestConfigurations.connection c = None)
        /\ (PyDict.get "discovery" d = None ->
            AcceptanceTestConfigurations.discovery c = None)
        /\ (PyDict.get "basic_read" d = None ->
            AcceptanceTestConfigurations.basic_read c = None)
        /\ (PyDict.get "full_refresh" d = None ->
            AcceptanceTestConfigurations.full_refresh c = None)
        /\ (PyDict.get "incremental" d = None ->
            AcceptanceTestConfigurations.incremental c = None))
  /\ (forall (T : Type) (parse_test : dict -> result T) w,
        GenericTestConfig.parse parse_test d = Ok w ->
        (PyDict.get "bypass_reason" d = None ->
         GenericTestConfig.bypass_reason w = None)
        /\ (PyDict.get "tests" d = None -> GenericTestConfig.tests w = None))
  /\ (forall c, ExpectedRecordsConfig.parse d = Ok c ->
        (PyDict.get "extra_fields" d = None ->
         ExpectedRecordsConfig.extra_fields c = false)
        /\ (PyDict.get "exact_order" d = None ->
            ExpectedRecordsConfig.exact_order c = false)
        /\ (PyDict.get "extra_records" d = None ->
            ExpectedRecordsConfig.extra_records c = true))
  /\ (forall c, BackwardCompatibilityTestsConfig.parse d = Ok c ->
        (PyDict.get "previous_connector_version" d = None ->
         BackwardCompatibilityTestsConfig.previous_connector_version c
         = "latest")
        /\ (PyDict.get "disable_for_version" d = None ->
            BackwardCompatibilityTestsConfig.disable_for_version c = None))
  /\ (forall (allow : bool) (image : string),
        Config.construct_with allow
          [("connector_image", JStr image); ("acceptance_tests", JDict [])]
        = ([],
           Valid
             (Config.make image
                (AcceptanceTestConfigurations.make None None None None None
                   None)
                None (Some Config.low)))).
Proof.
  split; [|split; [|split; [|split; [|split]]]].
  - intros c H. unfold Config.validate_fields in H.
    model_fields H; repeat split; intros Hget; default_field Hget.
  - intros c H. unfold AcceptanceTestConfigurations.parse in H.
    model_fields H; repeat split; intros Hget; default_field Hget.
  - intros T parse_test w H. unfold GenericTestConfig.parse in H.
    cbv zeta in H. fields_ok H. subst. simpl.
    split; intros Hget; default_field Hget.
  - intros c H.
    split; [|split]; intros Hget.
    + unfold ExpectedRecordsConfig.parse in H. cbv zeta in H.
      model_fields H. default_field Hget.
    + destruct (ExpectedRecordsConfig.exact_order c) eqn:Heo; [|reflexivity].
      unfold ExpectedRecordsConfig.parse in H. cbv zeta in H.
      model_fields H. simpl in Heo. subst.
      unfold always in Ha0. rewrite Hget in Ha0.
      apply at_loc_ok, bind_ok in Ha0. destruct Ha0 as (b & Hb & Hv).
      injection Hb as <-.
      unfold ExpectedRecordsConfig.validate_exact_order in Hv.
      destruct (_ && _ && negb false); discriminate.
    + destruct (ExpectedRecordsConfig.extra_records c) eqn:Her; [reflexivity|].
      unfold ExpectedRecordsConfig.parse in H. cbv zeta in H.
      model_fields H. simpl in Her. subst.
      unfold always in Ha. rewrite Hget in Ha.
      apply at_loc_ok, bind_ok in Ha. destruct Ha as (b & Hb & Hv).
      injection Hb as <-.
      unfold ExpectedRecordsConfig.validate_extra_records in Hv.
      destruct (_ && _ && true); discriminate.
  - intros c H. unfold BackwardCompatibilityTestsConfig.parse in H.
    model_fields H; repeat split; intros Hget; default_field Hget.
  - intros allow image. now destruct allow.
Qed.

Lemma root_defaults_witness :
  AcceptanceTestConfigurations.parse [("spec", JDict [])]
  = Ok (AcceptanceTestConfigurations.make
          (Some (GenericTestConfig.make None None)) None None None None None)
  /\ AcceptanceTestConfigurations.connection
       (AcceptanceTestConfigurations.make
          (Some (GenericTestConfig.make None None)) None None None None None)
     = None.
Proof.
  split; [reflexivity|].
  apply (proj1 (proj2 (root_defaults [("spec", JDict [])]))
           (AcceptanceTestConfigurations.make
              (Some (GenericTestConfig.make None None)) None None None None None)
           eq_refl).
  reflexivity.
Defined.

(** ** Well-formed documents *)

Lemma remove_keys_subset {V : Type} (k k' : string) (d : list (string * V)) :
  In k' (PyDict.keys (PyDict.remove k d)) -> In k' (PyDict.keys d).
Proof.
  induction d as [|[k0 v0] d IH]; simpl; auto.
  destruct (String.eqb k k0); simpl; intuition.
Qed.

Lemma wf_remove {V : Type} (k : string) (d : list (string * V)) :
  PyDict.wf d -> PyDict.wf (PyDict.remove k d).
Proof.
  unfold PyDict.wf. induction d as [|[k0 v0] d IH]; simpl; auto.
  intros Hnd. inversion Hnd as [|? ? Hnot Hnd']; subst.
  destruct (String.eqb k k0); simpl; auto.
  constructor; auto. intros Hin. apply Hnot. eapply remove_keys_subset; eauto.
Qed.

Lemma wf_set {V : Type} (k : string) (v : V) (d : list (string * V)) :
  PyDict.wf d -> PyDict.wf (PyDict.set k v d).
Proof.
  unfold PyDict.wf. induction d as [|[k0 v0] d IH]; simpl.
  - intros _. repeat constructor. simpl. tauto.
  - intros Hnd. inversion Hnd as [|? ? Hnot Hnd']; subst.
    destruct (String.eqb_spec k k0); simpl.
    + subst. now constructor.
    + constructor; auto. rewrite keys_set. intuition.
Qed.

Lemma wf_migration_loop (items acc : dict) :
  PyDict.wf acc ->
  PyDict.wf
    (fold_left
       (fun acc entry =>
          PyDict.set (fst entry) (JDict [("tests", snd entry)]) acc)
       items acc).
Proof.
  revert acc. induction items as [|[name configs] items IH]; intros acc Hwf;
    simpl; auto using wf_set.
Qed.

(** The migration keeps documents well formed: from a document with
    pairwise distinct keys it returns a document with pairwise distinct
    keys, namely "acceptance_tests" and the keys of the input other than
    "tests", and the mapping it stores under "acceptance_tests" has pairwise
    distinct category names. *)
Theorem migration_preserves_well_formedness (d migrated : dict) :
  PyDict.wf d ->
  Config.migrate_legacy_to_current_config d = Returned migrated ->
  PyDict.wf migrated
  /\ (forall k, In k (PyDict.keys migrated)
                <-> k = "acceptance_tests"
                    \/ (k <> "tests" /\ In k (PyDict.keys d)))
  /\ exists at_,
       PyDict.get "acceptance_tests" migrated = Some (JDict at_)
       /\ PyDict.wf at_.
Proof.
  intros Hwf Hm. destruct (migrate_returns_inv _ Hm) as (items & Ht & ->).
  split; [|split].
  - now apply wf_set, wf_remove.
  - intros k. rewrite keys_set. split.
    + intros [-> | Hin]; [now left|]. right. split.
      * intros ->. apply get_in_keys in Hin. destruct Hin as [v Hv].
        rewrite get_remove_eq in Hv. discriminate.
      * eapply remove_keys_subset; eauto.
    + intros [-> | [Hne Hin]]; [now left|]. right.
      apply get_in_keys in Hin. destruct Hin as [v Hv].
      apply get_in_keys. exists v. rewrite get_remove_ne; congruence.
  - eexists. split; [apply get_set_eq|].
    unfold acceptance_tests_of. apply wf_migration_loop. constructor.
Qed.

Lemma migration_preserves_well_formedness_witness :
  PyDict.wf migrated_example
  /\ (forall k, In k (PyDict.keys migrated_example)
                <-> k = "acceptance_tests"
                    \/ (k <> "tests" /\ In k (PyDict.keys legacy_example)))
  /\ exists at_,
       PyDict.get "acceptance_tests" migrated_example = Some (JDict at_)
       /\ PyDict.wf at_.
Proof.
  apply (@migration_preserves_well_formedness legacy_example).
  - repeat constructor; simpl; intuition discriminate.
  - reflexivity.
Defined.

(** ** A legacy category after migration *)

(** In a migrated legacy document, a category that held a list is
    validated entry by entry: the result is a wrapper without bypass reason
    holding the validated entries in their order, or the errors of the
    entries, each located under the category, "tests" and the index of its
    entry. *)
Theorem legacy_category_validation
  (T : Type) (parse_test : dict -> result T) (items : dict)
  (category : string) (l : list json) :
  PyDict.wf items ->
  PyDict.get category items = Some (JList l) ->
  AcceptanceTestConfigurations.category (acceptance_tests_of items) category
    parse_test
  = fmap (fun tests => Some (GenericTestConfig.make None (Some tests)))
      (at_loc (LKey category)
         (at_loc (LKey "tests")
            (list_items (not_none (model_validate parse_test)) 0 l))).
Proof.
  intros Hwf Hget. unfold AcceptanceTestConfigurations.category, defaulted.
  rewrite (acceptance_tests_of_wf Hwf), get_map_wrap_tests, Hget.
  cbn [option_map allow_none model_validate].
  rewrite call_model_unreserved by reflexivity.
  rewrite migrated_wrapper_parse. cbn [allow_none list_validate].
  now destruct (list_items (not_none (model_validate parse_test)) 0 l).
Qed.

Lemma legacy_category_validation_witness :
  AcceptanceTestConfigurations.category
    (acceptance_tests_of
       [("connection", JList [JDict [("status", JStr "failed")]; JDict []])])
    "connection" ConnectionTestConfig.parse
  = fmap (fun tests => Some (GenericTestConfig.make None (Some tests)))
      (at_loc (LKey "connection")
         (at_loc (LKey "tests")
            (list_items (not_none (model_validate ConnectionTestConfig.parse))
               0 [JDict [("status", JStr "failed")]; JDict []]))).
Proof.
  apply (@legacy_category_validation _ ConnectionTestConfig.parse).
  - repeat constructor. simpl. tauto.
  - reflexivity.
Defined.
